(** * StudyFlow: the gamification utilities, the task edit modal and the
    fetch-based API handlers, embedded from the TypeScript sources.

    Numbers of the source are JavaScript numbers.  Every counter, XP amount
    and level handled here is an integer, so they are embedded as [Z]; the
    one place where the source divides ([getLevelProgress]) is embedded with
    exact rationals and the special values of IEEE division by zero.  The
    sums and products of the source are those of doubles: they are the exact
    ones of [Z] as long as the operands and the result are integers of
    magnitude at most 2^53.  The embedding covers this range, which the
    counters and XP amounts of the application do not leave; where an
    argument of a function could leave it, the range is a hypothesis of the
    property.

    Text is held as the bytes of its UTF-8 encoding. *)

From Stdlib Require Import ZArith QArith Qminmax Lia Bool Ascii String DecimalString.
From stdpp Require Import gmap strings list.

Local Open Scope string_scope.
Local Open Scope Z_scope.

(** ** Effects: state passing with exceptions

    An [async] function of the source is embedded as a state transformer
    over a world [W] that either returns a value or throws. *)

Inductive outcome (A : Type) : Type :=
  | Ret (a : A)
  | Throw (e : string).
Arguments Ret {A} a.
Arguments Throw {A} e.

Module Eff.
Section Eff.
Context {W : Type}.

Definition M (A : Type) : Type := W -> outcome A * W.

Definition ret {A} (a : A) : M A := fun w => (Ret a, w).

Definition throw {A} (e : string) : M A := fun w => (Throw e, w).

Definition bind {A B} (m : M A) (k : A -> M B) : M B :=
  fun w =>
    match m w with
    | (Ret a, w1) => k a w1
    | (Throw e, w1) => (Throw e, w1)
    end.

(** [try { body } catch (e) { handler e }] *)
Definition try_catch {A} (body : M A) (handler : string -> M A) : M A :=
  fun w =>
    match body w with
    | (Ret a, w1) => (Ret a, w1)
    | (Throw e, w1) => handler e w1
    end.

(** [try { body } finally { fin }]: [fin] runs on both exits and the
    exit of [body] is kept unless [fin] itself throws. *)
Definition try_finally {A} (body : M A) (fin : M unit) : M A :=
  fun w =>
    match body w with
    | (r, w1) =>
        match fin w1 with
        | (Ret _, w2) => (r, w2)
        | (Throw e, w2) => (Throw e, w2)
        end
    end.

(** [try { body } catch (e) { handler e } finally { fin }] *)
Definition try_catch_finally {A} (body : M A) (handler : string -> M A)
    (fin : M unit) : M A :=
  try_finally (try_catch body handler) fin.

(** A call of an [async] function that is not awaited, made as the last
    thing its caller does: the callee runs, and its rejection, if any, does
    not reach the caller.  The caller has nothing left to do after the call,
    so the events of the callee follow those of the caller, as they do in
    the source.  Where the caller goes on after such a call ([saveCourse]),
    what is left of the callee is returned as pending work instead. *)
Definition spawn {A} (m : M A) : M unit :=
  fun w => (Ret tt, snd (m w)).

(** A synchronous effect that cannot fail. *)
Definition effect (f : W -> W) : M unit := fun w => (Ret tt, f w).

Definition gets {A} (f : W -> A) : M A := fun w => (Ret (f w), w).

Definition lift {A} (o : outcome A) : M A := fun w => (o, w).

Definition when (b : bool) (m : M unit) : M unit := if b then m else ret tt.

(** [xs.forEach(x => ...)] where the callback updates a local variable
    of the enclosing function: the variable is threaded as [acc]. *)
Fixpoint forEach {A B} (xs : list A) (body : B -> A -> M B) (acc : B) : M B :=
  match xs with
  | [] => ret acc
  | x :: rest => bind (body acc x) (fun acc' => forEach rest body acc')
  end.
End Eff.
End Eff.

Notation "x <- c1 ;; c2" := (Eff.bind c1 (fun x => c2))
  (at level 100, c1 at next level, right associativity).
Notation "c1 ;;; c2" := (Eff.bind c1 (fun _ => c2))
  (at level 100, right associativity).

(** JavaScript truthiness of a string: only the empty string is falsy. *)
Definition truthy (s : string) : bool := negb (String.eqb s "").

(** The white space and line terminators that [String.prototype.trim]
    strips.  Those of one byte: TAB, LF, VT, FF, CR and SP. *)
Definition is_space (c : ascii) : bool :=
  let n := nat_of_ascii c in
  (n =? 32)%nat || (n =? 9)%nat || (n =? 10)%nat || (n =? 13)%nat ||
  (n =? 11)%nat || (n =? 12)%nat.

(** Of two bytes: U+00A0, the no-break space (C2 A0). *)
Definition is_space2 (c1 c2 : ascii) : bool :=
  (nat_of_ascii c1 =? 194)%nat && (nat_of_ascii c2 =? 160)%nat.

(** Of three bytes: U+1680 (E1 9A 80), U+2000 to U+200A (E2 80 80 to 8A),
    U+2028, U+2029 and U+202F (E2 80 A8, A9, AF), U+205F (E2 81 9F),
    U+3000 (E3 80 80) and U+FEFF (EF BB BF). *)
Definition is_space3 (c1 c2 c3 : ascii) : bool :=
  let n1 := nat_of_ascii c1 in
  let n2 := nat_of_ascii c2 in
  let n3 := nat_of_ascii c3 in
  ((n1 =? 225)%nat && (n2 =? 154)%nat && (n3 =? 128)%nat) ||
  ((n1 =? 226)%nat && (n2 =? 128)%nat &&
     (((128 <=? n3)%nat && (n3 <=? 138)%nat) ||
      (n3 =? 168)%nat || (n3 =? 169)%nat || (n3 =? 175)%nat)) ||
  ((n1 =? 226)%nat && (n2 =? 129)%nat && (n3 =? 159)%nat) ||
  ((n1 =? 227)%nat && (n2 =? 128)%nat && (n3 =? 128)%nat) ||
  ((n1 =? 239)%nat && (n2 =? 187)%nat && (n3 =? 191)%nat).

(** [s.trimStart()] *)
Fixpoint trimStart (s : string) : string :=
  match s with
  | String c1 rest1 =>
      if is_space c1 then trimStart rest1
      else
        match rest1 with
        | String c2 rest2 =>
            if is_space2 c1 c2 then trimStart rest2
            else
              match rest2 with
              | String c3 rest3 =>
                  if is_space3 c1 c2 c3 then trimStart rest3 else s
              | EmptyString => s
              end
        | EmptyString => s
        end
  | EmptyString => EmptyString
  end.

(** [s.trimEnd()], on the bytes of [s] in reverse order. *)
Fixpoint trimEnd_reversed (s : string) : string :=
  match s with
  | String c1 rest1 =>
      if is_space c1 then trimEnd_reversed rest1
      else
        match rest1 with
        | String c2 rest2 =>
            if is_space2 c2 c1 then trimEnd_reversed rest2
            else
              match rest2 with
              | String c3 rest3 =>
                  if is_space3 c3 c2 c1 then trimEnd_reversed rest3 else s
              | EmptyString => s
              end
        | EmptyString => s
        end
  | EmptyString => EmptyString
  end.

(** [s.trim()] *)
Definition trim (s : string) : string :=
  let chars := list_ascii_of_string (trimStart s) in
  string_of_list_ascii (rev (list_ascii_of_string
    (trimEnd_reversed (string_of_list_ascii (rev chars))))).

(** U+00A0 as text, for the examples. *)
Definition no_break_space : string :=
  String (ascii_of_nat 194) (String (ascii_of_nat 160) EmptyString).

(** [s.length]: the number of UTF-16 code units of the text, one for a code
    point of one to three bytes and two for a code point of four bytes. *)
Fixpoint js_length (s : string) : Z :=
  match s with
  | String c rest =>
      let n := nat_of_ascii c in
      (if (n <? 128)%nat then 1
       else if (n <? 192)%nat then 0
       else if (n <? 240)%nat then 1 else 2) + js_length rest
  | EmptyString => 0
  end.

(** [xs.includes(x)] on an array of strings. *)
Definition includes (xs : list string) (x : string) : bool :=
  existsb (String.eqb x) xs.

(** [[...new Set(xs)]]: the elements in the order of their first occurrence. *)
Definition uniq (xs : list string) : list string :=
  fold_left (fun seen x => if includes seen x then seen else (seen ++ [x])%list) xs [].

(** The result of a JavaScript division of two integers, and of [Math.min]
    and [Math.max] applied to it: a rational (the rounding of the quotient to
    a double is monotone and fixes 0 and 1, so it is left out), an infinity,
    or NaN. *)
Inductive JSNum : Type :=
  | Finite (q : Q)
  | PosInf
  | NegInf
  | NaN.

Definition js_div (a b : Z) : JSNum :=
  if b =? 0 then
    (if a =? 0 then NaN else if 0 <? a then PosInf else NegInf)
  else Finite (inject_Z a / inject_Z b)%Q.

(** [Math.max(x, c)] and [Math.min(x, c)] for a finite constant [c]. *)
Definition Math_max (x : JSNum) (c : Q) : JSNum :=
  match x with
  | Finite q => Finite (Qmax q c)
  | PosInf => PosInf
  | NegInf => Finite c
  | NaN => NaN
  end.

Definition Math_min (x : JSNum) (c : Q) : JSNum :=
  match x with
  | Finite q => Finite (Qmin q c)
  | PosInf => Finite c
  | NegInf => NegInf
  | NaN => NaN
  end.

(** ** utils/gamification.ts *)

Module Gamification.

Record Level := {
  level : Z;
  xp : Z;
  title : string;
  color : string;
}.

Definition LEVELS : list Level := [
  {| level := 1; xp := 0; title := "🌱 Beginner"; color := "#94A3B8" |};
  {| level := 2; xp := 100; title := "📚 Student"; color := "#60A5FA" |};
  {| level := 3; xp := 250; title := "🎯 Focused"; color := "#3B82F6" |};
  {| level := 4; xp := 500; title := "⚡ Productive"; color := "#8B5CF6" |};
  {| level := 5; xp := 1000; title := "🔥 On Fire"; color := "#F59E0B" |};
  {| level := 6; xp := 2000; title := "🚀 Achiever"; color := "#10B981" |};
  {| level := 7; xp := 3500; title := "💎 Pro"; color := "#06B6D4" |};
  {| level := 8; xp := 5500; title := "👑 Elite"; color := "#EC4899" |};
  {| level := 9; xp := 8000; title := "🌟 Master"; color := "#F43F5E" |};
  {| level := 10; xp := 12000; title := "🏆 Legend"; color := "#F59E0B" |}
].

(** The loop [for (let i = LEVELS.length - 1; i >= 0; i--)]: the argument
    [n] is [i + 1], so the loop is over when [n] is [0]. *)
Fixpoint calculateLevel_from (n : nat) (points : Z) : Z :=
  match n with
  | O => 1
  | S i =>
      match LEVELS !! i with
      | Some l => if points >=? l.(xp) then l.(level) else calculateLevel_from i points
      | None => calculateLevel_from i points
      end
  end.

Definition calculateLevel (points : Z) : Z :=
  calculateLevel_from (length LEVELS) points.

(** Badge definitions.  The fields [id], [name], [color], ... of the
    source carry the prefix [badge_] here, [color] being a field of [Level]
    already. *)
Record Badge := {
  badge_id : string;
  badge_name : string;
  badge_description : string;
  badge_icon : string;
  badge_color : string;
  badge_requirement : string;
  badge_unlocked : bool;
}.

Definition BADGES : list Badge := [
  {| badge_id := "first_task"; badge_name := "First Steps";
     badge_description := "Complete your first task";
     badge_icon := "footsteps"; badge_color := "#60A5FA";
     badge_requirement := "Complete 1 task"; badge_unlocked := false |};
  {| badge_id := "week_warrior"; badge_name := "Week Warrior";
     badge_description := "Maintain a 7-day streak";
     badge_icon := "flame"; badge_color := "#F59E0B";
     badge_requirement := "7 day streak"; badge_unlocked := false |};
  {| badge_id := "early_bird"; badge_name := "Early Bird";
     badge_description := "Complete a task before 8 AM";
     badge_icon := "sunny"; badge_color := "#FBBF24";
     badge_requirement := "Task completed before 8 AM"; badge_unlocked := false |};
  {| badge_id := "night_owl"; badge_name := "Night Owl";
     badge_description := "Complete a task after 10 PM";
     badge_icon := "moon"; badge_color := "#8B5CF6";
     badge_requirement := "Task completed after 10 PM"; badge_unlocked := false |};
  {| badge_id := "speedster"; badge_name := "Speedster";
     badge_description := "Complete 5 tasks in one day";
     badge_icon := "flash"; badge_color := "#3B82F6";
     badge_requirement := "5 tasks in one day"; badge_unlocked := false |};
  {| badge_id := "perfectionist"; badge_name := "Perfectionist";
     badge_description := "Complete 10 tasks without missing a deadline";
     badge_icon := "checkmark-done"; badge_color := "#10B981";
     badge_requirement := "10 tasks on time"; badge_unlocked := false |};
  {| badge_id := "pomodoro_master"; badge_name := "Pomodoro Master";
     badge_description := "Complete 25 Pomodoro sessions";
     badge_icon := "timer"; badge_color := "#EF4444";
     badge_requirement := "25 Pomodoro sessions"; badge_unlocked := false |};
  {| badge_id := "study_marathon"; badge_name := "Study Marathon";
     badge_description := "Log 40+ hours of study time";
     badge_icon := "school"; badge_color := "#10B981";
     badge_requirement := "40+ study hours"; badge_unlocked := false |}
].

Record PlayerStats := {
  totalXP : Z;
  currentLevel : Z;
  tasksCompleted : Z;
  currentStreak : Z;
  longestStreak : Z;
  pomodoroSessions : Z;
  totalStudyHours : Z;
  badges : list string;
  tasksCompletedOnTime : Z;
  tasksCompletedToday : Z;
  lastTaskDate : option string;
}.

Definition STATS_KEY : string := "@studyflow_player_stats".

Definition getDefaultStats : PlayerStats := {|
  totalXP := 0;
  currentLevel := 1;
  tasksCompleted := 0;
  currentStreak := 0;
  longestStreak := 0;
  pomodoroSessions := 0;
  totalStudyHours := 0;
  badges := [];
  tasksCompletedOnTime := 0;
  tasksCompletedToday := 0;
  lastTaskDate := None;
|}.

(** Assignments to the fields of a stats object. *)
Definition set_totalXP (v : Z) (s : PlayerStats) : PlayerStats :=
  {| totalXP := v; currentLevel := s.(currentLevel);
     tasksCompleted := s.(tasksCompleted); currentStreak := s.(currentStreak);
     longestStreak := s.(longestStreak); pomodoroSessions := s.(pomodoroSessions);
     totalStudyHours := s.(totalStudyHours); badges := s.(badges);
     tasksCompletedOnTime := s.(tasksCompletedOnTime);
     tasksCompletedToday := s.(tasksCompletedToday);
     lastTaskDate := s.(lastTaskDate) |}.

Definition set_currentLevel (v : Z) (s : PlayerStats) : PlayerStats :=
  {| totalXP := s.(totalXP); currentLevel := v;
     tasksCompleted := s.(tasksCompleted); currentStreak := s.(currentStreak);
     longestStreak := s.(longestStreak); pomodoroSessions := s.(pomodoroSessions);
     totalStudyHours := s.(totalStudyHours); badges := s.(badges);
     tasksCompletedOnTime := s.(tasksCompletedOnTime);
     tasksCompletedToday := s.(tasksCompletedToday);
     lastTaskDate := s.(lastTaskDate) |}.

Definition set_tasksCompleted (v : Z) (s : PlayerStats) : PlayerStats :=
  {| totalXP := s.(totalXP); currentLevel := s.(currentLevel);
     tasksCompleted := v; currentStreak := s.(currentStreak);
     longestStreak := s.(longestStreak); pomodoroSessions := s.(pomodoroSessions);
     totalStudyHours := s.(totalStudyHours); badges := s.(badges);
     tasksCompletedOnTime := s.(tasksCompletedOnTime);
     tasksCompletedToday := s.(tasksCompletedToday);
     lastTaskDate := s.(lastTaskDate) |}.

Definition set_currentStreak (v : Z) (s : PlayerStats) : PlayerStats :=
  {| totalXP := s.(totalXP); currentLevel := s.(currentLevel);
     tasksCompleted := s.(tasksCompleted); currentStreak := v;
     longestStreak := s.(longestStreak); pomodoroSessions := s.(pomodoroSessions);
     totalStudyHours := s.(totalStudyHours); badges := s.(badges);
     tasksCompletedOnTime := s.(tasksCompletedOnTime);
     tasksCompletedToday := s.(tasksCompletedToday);
     lastTaskDate := s.(lastTaskDate) |}.

Definition set_longestStreak (v : Z) (s : PlayerStats) : PlayerStats :=
  {| totalXP := s.(totalXP); currentLevel := s.(currentLevel);
     tasksCompleted := s.(tasksCompleted); currentStreak := s.(currentStreak);
     longestStreak := v; pomodoroSessions := s.(pomodoroSessions);
     totalStudyHours := s.(totalStudyHours); badges := s.(badges);
     tasksCompletedOnTime := s.(tasksCompletedOnTime);
     tasksCompletedToday := s.(tasksCompletedToday);
     lastTaskDate := s.(lastTaskDate) |}.

Definition set_pomodoroSessions (v : Z) (s : PlayerStats) : PlayerStats :=
  {| totalXP := s.(totalXP); currentLevel := s.(currentLevel);
     tasksCompleted := s.(tasksCompleted); currentStreak := s.(currentStreak);
     longestStreak := s.(longestStreak); pomodoroSessions := v;
     totalStudyHours := s.(totalStudyHours); badges := s.(badges);
     tasksCompletedOnTime := s.(tasksCompletedOnTime);
     tasksCompletedToday := s.(tasksCompletedToday);
     lastTaskDate := s.(lastTaskDate) |}.

Definition set_badges (v : list string) (s : PlayerStats) : PlayerStats :=
  {| totalXP := s.(totalXP); currentLevel := s.(currentLevel);
     tasksCompleted := s.(tasksCompleted); currentStreak := s.(currentStreak);
     longestStreak := s.(longestStreak); pomodoroSessions := s.(pomodoroSessions);
     totalStudyHours := s.(totalStudyHours); badges := v;
     tasksCompletedOnTime := s.(tasksCompletedOnTime);
     tasksCompletedToday := s.(tasksCompletedToday);
     lastTaskDate := s.(lastTaskDate) |}.

Definition set_tasksCompletedOnTime (v : Z) (s : PlayerStats) : PlayerStats :=
  {| totalXP := s.(totalXP); currentLevel := s.(currentLevel);
     tasksCompleted := s.(tasksCompleted); currentStreak := s.(currentStreak);
     longestStreak := s.(longestStreak); pomodoroSessions := s.(pomodoroSessions);
     totalStudyHours := s.(totalStudyHours); badges := s.(badges);
     tasksCompletedOnTime := v;
     tasksCompletedToday := s.(tasksCompletedToday);
     lastTaskDate := s.(lastTaskDate) |}.

Definition set_tasksCompletedToday (v : Z) (s : PlayerStats) : PlayerStats :=
  {| totalXP := s.(totalXP); currentLevel := s.(currentLevel);
     tasksCompleted := s.(tasksCompleted); currentStreak := s.(currentStreak);
     longestStreak := s.(longestStreak); pomodoroSessions := s.(pomodoroSessions);
     totalStudyHours := s.(totalStudyHours); badges := s.(badges);
     tasksCompletedOnTime := s.(tasksCompletedOnTime);
     tasksCompletedToday := v;
     lastTaskDate := s.(lastTaskDate) |}.

Definition set_lastTaskDate (v : option string) (s : PlayerStats) : PlayerStats :=
  {| totalXP := s.(totalXP); currentLevel := s.(currentLevel);
     tasksCompleted := s.(tasksCompleted); currentStreak := s.(currentStreak);
     longestStreak := s.(longestStreak); pomodoroSessions := s.(pomodoroSessions);
     totalStudyHours := s.(totalStudyHours); badges := s.(badges);
     tasksCompletedOnTime := s.(tasksCompletedOnTime);
     tasksCompletedToday := s.(tasksCompletedToday);
     lastTaskDate := v |}.

(** *** The world the module runs in

    [AsyncStorage] is a string-to-string store whose calls may reject; the
    rejections are scheduled by [faults], one entry per call ([true]: this
    call rejects; an exhausted schedule means no further rejection).  Each
    call is recorded in [accesses] with its key.  The clock is what
    [new Date()] reads during one operation. *)

Inductive Access : Type :=
  | GetItem (key : string)
  | SetItem (key value : string).

Definition access_key (a : Access) : string :=
  match a with
  | GetItem k => k
  | SetItem k _ => k
  end.

Inductive Haptic : Type :=
  | NotificationSuccess
  | ImpactMedium.

Record Clock := {
  nowMs : Z;                  (* new Date().valueOf() *)
  todayString : string;       (* new Date().toDateString() *)
  yesterdayString : string;   (* the same, one day earlier *)
  hours : Z;                  (* new Date().getHours() *)
}.

Record World := {
  store : gmap string string;
  faults : list bool;
  accesses : list Access;
  console : list string;
  haptics : list Haptic;
  clock : Clock;
}.

Definition next_fault (w : World) : bool * World :=
  match w.(faults) with
  | [] => (false, w)
  | f :: fs =>
      (f, {| store := w.(store); faults := fs; accesses := w.(accesses);
             console := w.(console); haptics := w.(haptics); clock := w.(clock) |})
  end.

Definition record_access (a : Access) (w : World) : World :=
  {| store := w.(store); faults := w.(faults);
     accesses := (w.(accesses) ++ [a])%list;
     console := w.(console); haptics := w.(haptics); clock := w.(clock) |}.

Definition write_store (k v : string) (w : World) : World :=
  {| store := <[k := v]> w.(store); faults := w.(faults);
     accesses := w.(accesses);
     console := w.(console); haptics := w.(haptics); clock := w.(clock) |}.

Definition AsyncStorage_getItem (key : string) : Eff.M (option string) :=
  fun w =>
    let (fails, w1) := next_fault (record_access (GetItem key) w) in
    if fails then (Throw "AsyncStorage.getItem rejected", w1)
    else (Ret (w1.(store) !! key), w1).

Definition AsyncStorage_setItem (key value : string) : Eff.M unit :=
  fun w =>
    let (fails, w1) := next_fault (record_access (SetItem key value) w) in
    if fails then (Throw "AsyncStorage.setItem rejected", w1)
    else (Ret tt, write_store key value w1).

Definition console_error (msg : string) : Eff.M unit :=
  Eff.effect (fun w =>
    {| store := w.(store); faults := w.(faults); accesses := w.(accesses);
       console := (w.(console) ++ [msg])%list;
       haptics := w.(haptics); clock := w.(clock) |}).

Definition Haptics_fire (h : Haptic) : Eff.M unit :=
  Eff.effect (fun w =>
    {| store := w.(store); faults := w.(faults); accesses := w.(accesses);
       console := w.(console);
       haptics := (w.(haptics) ++ [h])%list; clock := w.(clock) |}).

Definition Date_now : Eff.M Clock := Eff.gets clock.

(** [LEVELS[LEVELS.length - 1]] exists, the table not being empty; the
    last branch stands for the [TypeError] of an empty table. *)
Definition getXPForNextLevel (currentLevel : Z) : Z :=
  match List.find (fun l => l.(level) =? currentLevel + 1) LEVELS with
  | Some nextLevel => nextLevel.(xp)
  | None =>
      match LEVELS !! (length LEVELS - 1)%nat with
      | Some l => l.(xp)
      | None => 0
      end
  end.

Definition getXPForCurrentLevel (currentLevel : Z) : Z :=
  match List.find (fun l => l.(level) =? currentLevel) LEVELS with
  | Some l => l.(xp)
  | None => 0
  end.

Record Task := {
  priority : string;
  estimated_duration : option Z;
  due_date : option string;
}.

Definition calculateTaskXP (task : Task) : Z :=
  let baseXP := 10 in
  let baseXP :=
    if String.eqb task.(priority) "high" then baseXP + 15
    else if String.eqb task.(priority) "medium" then baseXP + 10
    else if String.eqb task.(priority) "low" then baseXP + 5
    else baseXP in
  let baseXP :=
    match task.(estimated_duration) with
    | Some d => if d =? 0 then baseXP else baseXP + Z.min (d * 2) 30
    | None => baseXP
    end in
  baseXP.

(** The [switch (badge.id)] of [checkForNewBadges]. *)
Definition unlock_condition (id : string) (hour : Z) (stats : PlayerStats) : bool :=
  if String.eqb id "first_task" then stats.(tasksCompleted) >=? 1
  else if String.eqb id "week_warrior" then stats.(currentStreak) >=? 7
  else if String.eqb id "early_bird" then
    (hour <? 8) && (stats.(tasksCompletedToday) >? 0)
  else if String.eqb id "night_owl" then
    (hour >=? 22) && (stats.(tasksCompletedToday) >? 0)
  else if String.eqb id "speedster" then stats.(tasksCompletedToday) >=? 5
  else if String.eqb id "perfectionist" then stats.(tasksCompletedOnTime) >=? 10
  else if String.eqb id "pomodoro_master" then stats.(pomodoroSessions) >=? 25
  else if String.eqb id "study_marathon" then stats.(totalStudyHours) >=? 40
  else false.

(** The divisor of [getLevelProgress]. *)
Definition levelSpan (stats : PlayerStats) : Z :=
  getXPForNextLevel stats.(currentLevel) - getXPForCurrentLevel stats.(currentLevel).

Definition getLevelProgress (stats : PlayerStats) : JSNum :=
  let currentLevelXP := getXPForCurrentLevel stats.(currentLevel) in
  let nextLevelXP := getXPForNextLevel stats.(currentLevel) in
  let progress := js_div (stats.(totalXP) - currentLevelXP) (nextLevelXP - currentLevelXP) in
  Math_min (Math_max progress 0) 1.

(** What the JavaScript runtime provides and the module takes as given:
    [JSON.parse] at type [PlayerStats] (it throws on a malformed blob),
    [JSON.stringify], and the parsing of a date string by [new Date(s)]
    ([None] is an invalid date).

    [JSON.parse] is taken at the type the module gives its result: a blob
    either does not parse or parses to a [PlayerStats] object with all its
    fields, which is what [savePlayerStats] writes.  A blob that parses to
    another value (['null'], ['{}']) is not covered: on such a value the
    operations built on [loadPlayerStats] read fields that are not there.
    The properties of these operations are therefore stated for loads that
    yield a [PlayerStats]. *)
Class Runtime := {
  JSON_parse : string -> outcome PlayerStats;
  JSON_stringify : PlayerStats -> string;
  Date_parse : string -> option Z;
}.

Section WithRuntime.
Context `{Runtime}.

Definition loadPlayerStats : Eff.M PlayerStats :=
  Eff.try_catch
    (data <- AsyncStorage_getItem STATS_KEY ;;
     match data with
     | Some blob =>
         if truthy blob then Eff.lift (JSON_parse blob)
         else Eff.ret getDefaultStats
     | None => Eff.ret getDefaultStats
     end)
    (fun error =>
       console_error "Error loading player stats:" ;;;
       Eff.ret getDefaultStats).

Definition savePlayerStats (stats : PlayerStats) : Eff.M unit :=
  Eff.try_catch
    (AsyncStorage_setItem STATS_KEY (JSON_stringify stats))
    (fun error => console_error "Error saving player stats:").

Record AwardResult := {
  levelUp : bool;
  newLevel : option Z;
  stats : PlayerStats;
}.

Definition awardXP (xpAmount : Z) (reason : string) : Eff.M AwardResult :=
  stats <- loadPlayerStats ;;
  let oldLevel := stats.(currentLevel) in
  let stats := set_totalXP (stats.(totalXP) + xpAmount) stats in
  let stats := set_currentLevel (calculateLevel stats.(totalXP)) stats in
  savePlayerStats stats ;;;
  let levelUp := stats.(currentLevel) >? oldLevel in
  (if levelUp then Haptics_fire NotificationSuccess
   else Haptics_fire ImpactMedium) ;;;
  Eff.ret {| levelUp := levelUp;
             newLevel := if levelUp then Some stats.(currentLevel) else None;
             stats := stats |}.

(** The callback of [BADGES.forEach] in [checkForNewBadges]; [newBadges] is
    the array it pushes to. *)
Definition checkForNewBadges_each (stats : PlayerStats)
    (newBadges : list Badge) (badge : Badge) : Eff.M (list Badge) :=
  if includes stats.(badges) badge.(badge_id) then Eff.ret newBadges
  else
    now <- Date_now ;;
    let hour := now.(hours) in
    let unlock := unlock_condition badge.(badge_id) hour stats in
    if unlock then Eff.ret (newBadges ++ [badge])%list
    else Eff.ret newBadges.

Definition checkForNewBadges (stats : PlayerStats) : Eff.M (list Badge) :=
  newBadges <- Eff.forEach BADGES (checkForNewBadges_each stats) [] ;;
  Eff.when (0 <? Z.of_nat (length newBadges))
    (Haptics_fire NotificationSuccess) ;;;
  Eff.ret newBadges.

(** The result of [completeTask]; the fields [xp] and [levelUp] of the
    source are [earnedXP] and [leveledUp] here. *)
Record CompleteResult := {
  earnedXP : Z;
  leveledUp : bool;
  newBadges : list Badge;
}.

Definition completeTask (task : Task) : Eff.M CompleteResult :=
  stats <- loadPlayerStats ;;
  let xp := calculateTaskXP task in
  let stats := set_tasksCompleted (stats.(tasksCompleted) + 1) stats in
  let stats := set_tasksCompletedToday (stats.(tasksCompletedToday) + 1) stats in
  now <- Date_now ;;
  let stats :=
    match task.(due_date) with
    | Some due =>
        if truthy due then
          match Date_parse due with
          | Some dueDate =>
              if now.(nowMs) <=? dueDate
              then set_tasksCompletedOnTime (stats.(tasksCompletedOnTime) + 1) stats
              else stats
          | None => stats
          end
        else stats
    | None => stats
    end in
  let today := now.(todayString) in
  let stats :=
    if bool_decide (stats.(lastTaskDate) = Some today) then stats
    else
      let stats :=
        if bool_decide (stats.(lastTaskDate) = Some now.(yesterdayString))
        then set_currentStreak (stats.(currentStreak) + 1) stats
        else set_currentStreak 1 stats in
      let stats :=
        if stats.(currentStreak) >? stats.(longestStreak)
        then set_longestStreak stats.(currentStreak) stats
        else stats in
      let stats := set_lastTaskDate (Some today) stats in
      set_tasksCompletedToday 1 stats in
  newBadges <- checkForNewBadges stats ;;
  let stats :=
    set_badges (uniq (stats.(badges) ++ map badge_id newBadges)%list) stats in
  savePlayerStats stats ;;;
  result <- awardXP xp "Task completion" ;;
  Eff.ret {| earnedXP := xp;
             leveledUp := result.(levelUp);
             newBadges := newBadges |}.

Definition completePomodoroSession : Eff.M unit :=
  stats <- loadPlayerStats ;;
  let stats := set_pomodoroSessions (stats.(pomodoroSessions) + 1) stats in
  newBadges <- checkForNewBadges stats ;;
  let stats :=
    set_badges (uniq (stats.(badges) ++ map badge_id newBadges)%list) stats in
  savePlayerStats stats ;;;
  awardXP 5 "Pomodoro session" ;;;
  Eff.ret tt.

End WithRuntime.

(** The badges a check at local hour [hour] unlocks: those of [BADGES], in
    table order, that the stats do not list yet and whose condition holds. *)
Definition unlockedAt (hour : Z) (stats : PlayerStats) : list Badge :=
  List.filter
    (fun badge => negb (includes stats.(badges) badge.(badge_id)) &&
                  unlock_condition badge.(badge_id) hour stats)
    BADGES.

(** An operation touches only [key]: every storage call it makes is on
    [key], and the entry of every other key is left as it was. *)
Definition touches_only (key : string) {A : Type} (m : Eff.M A) : Prop :=
  forall w : World,
    exists calls,
      (snd (m w)).(accesses) = (w.(accesses) ++ calls)%list /\
      Forall (fun a => access_key a = key) calls /\
      forall k, k <> key -> (snd (m w)).(store) !! k = w.(store) !! k.

(** A runtime for the examples: no blob parses and no date string is valid. *)
Definition strict_runtime : Runtime := {|
  JSON_parse := fun _ => Throw "SyntaxError";
  JSON_stringify := fun _ => "{}";
  Date_parse := fun _ => None;
|}.

Definition noon : Clock := {|
  nowMs := 1699963200000;
  todayString := "Tue Nov 14 2023";
  yesterdayString := "Mon Nov 13 2023";
  hours := 12;
|}.

Definition early : Clock := {|
  nowMs := 1699945200000;
  todayString := "Tue Nov 14 2023";
  yesterdayString := "Mon Nov 13 2023";
  hours := 7;
|}.

(** An empty store whose calls reject as scheduled. *)
Definition fresh_world (schedule : list bool) (c : Clock) : World := {|
  store := ∅;
  faults := schedule;
  accesses := [];
  console := [];
  haptics := [];
  clock := c;
|}.

(** *** Further functions of utils/gamification.ts *)

Definition with_unlocked (flag : bool) (b : Badge) : Badge :=
  {| badge_id := b.(badge_id); badge_name := b.(badge_name);
     badge_description := b.(badge_description); badge_icon := b.(badge_icon);
     badge_color := b.(badge_color); badge_requirement := b.(badge_requirement);
     badge_unlocked := flag |}.

Definition getUnlockedBadges (stats : PlayerStats) : list Badge :=
  map (with_unlocked true)
    (List.filter (fun badge => includes stats.(badges) badge.(badge_id)) BADGES).

Definition getLockedBadges (stats : PlayerStats) : list Badge :=
  map (with_unlocked false)
    (List.filter (fun badge => negb (includes stats.(badges) badge.(badge_id))) BADGES).

(** The stats [completeTask] holds when it checks for badges: the loaded
    stats after the counter, on-time and streak updates, as a function of
    the task and of the clock.  This and the two functions after it name
    steps that [completeTask] and [awardXP] make in line; the lemmas
    [completeTask_eq] and [awardXP_eq] show that the operations make exactly
    these steps. *)
Definition completeTask_counters `{Runtime} (task : Task) (now : Clock)
    (stats : PlayerStats) : PlayerStats :=
  let stats := set_tasksCompleted (stats.(tasksCompleted) + 1) stats in
  let stats := set_tasksCompletedToday (stats.(tasksCompletedToday) + 1) stats in
  let stats :=
    match task.(due_date) with
    | Some due =>
        if truthy due then
          match Date_parse due with
          | Some dueDate =>
              if now.(nowMs) <=? dueDate
              then set_tasksCompletedOnTime (stats.(tasksCompletedOnTime) + 1) stats
              else stats
          | None => stats
          end
        else stats
    | None => stats
    end in
  let today := now.(todayString) in
  if bool_decide (stats.(lastTaskDate) = Some today) then stats
  else
    let stats :=
      if bool_decide (stats.(lastTaskDate) = Some now.(yesterdayString))
      then set_currentStreak (stats.(currentStreak) + 1) stats
      else set_currentStreak 1 stats in
    let stats :=
      if stats.(currentStreak) >? stats.(longestStreak)
      then set_longestStreak stats.(currentStreak) stats
      else stats in
    let stats := set_lastTaskDate (Some today) stats in
    set_tasksCompletedToday 1 stats.

(** [stats.badges = [...new Set([...stats.badges, ...newBadges.map(b => b.id)])]] *)
Definition merge_badges (unlocked : list Badge) (stats : PlayerStats) : PlayerStats :=
  set_badges (uniq (stats.(badges) ++ map badge_id unlocked)%list) stats.

(** What [loadPlayerStats] gets out of the store, before the fallback. *)
Definition read_stats `{Runtime} (w : World) : outcome PlayerStats :=
  if hd false w.(faults) then Throw "AsyncStorage.getItem rejected"
  else
    match w.(store) !! STATS_KEY with
    | Some blob => if truthy blob then JSON_parse blob else Ret getDefaultStats
    | None => Ret getDefaultStats
    end.

(** The stats [awardXP] writes, from the stats it loaded. *)
Definition awarded (xpAmount : Z) (stats : PlayerStats) : PlayerStats :=
  let stats := set_totalXP (stats.(totalXP) + xpAmount) stats in
  set_currentLevel (calculateLevel stats.(totalXP)) stats.

(** The world in which [completeTask] and [completePomodoroSession] call
    [awardXP]: the world [w] they loaded the stats in, after the badge check
    on the updated stats [stats] and the save of these stats with the badges
    merged. *)
Definition before_award `{Runtime} (stats : PlayerStats) (w : World) : World :=
  snd (savePlayerStats (merge_badges (unlockedAt w.(clock).(hours) stats) stats)
         (snd (checkForNewBadges stats w))).

(** A runtime for the examples in which every blob parses to [s], and which
    knows one date string. *)
Definition echo_runtime (s : PlayerStats) : Runtime := {|
  JSON_parse := fun _ => Ret s;
  JSON_stringify := fun _ => "{}";
  Date_parse := fun d =>
    if String.eqb d "2023-11-15T12:00:00.000Z" then Some 1700049600000 else None;
|}.

(** A task and the stats its completion saves in an empty store at noon,
    for the examples. *)
Definition sample_task : Task :=
  {| priority := "high"; estimated_duration := Some 30; due_date := None |}.

Definition sample_saved : PlayerStats :=
  let s1 := @completeTask_counters strict_runtime sample_task noon getDefaultStats in
  merge_badges (unlockedAt noon.(hours) s1) s1.

End Gamification.

(** ** components/LevelProgressBar.tsx *)

Module LevelProgressBar.
Import Gamification.

(** [LEVELS.find(l => l.level === currentLevel) || LEVELS[0]] *)
Definition levelData (currentLevel : Z) : option Level :=
  match List.find (fun l => l.(level) =? currentLevel) LEVELS with
  | Some l => Some l
  | None => LEVELS !! 0%nat
  end.

Definition xpInLevel (currentLevel totalXP : Z) : Z :=
  totalXP - getXPForCurrentLevel currentLevel.

Definition xpNeeded (currentLevel : Z) : Z :=
  getXPForNextLevel currentLevel - getXPForCurrentLevel currentLevel.

End LevelProgressBar.

(** ** components/TaskEditModal.tsx *)

Module TaskEditModal.

Inductive TaskType : Type := homework | exam | project | reading | other.
Inductive Priority : Type := low | medium | high | urgent.

Definition TaskType_value (t : TaskType) : string :=
  match t with
  | homework => "homework"
  | exam => "exam"
  | project => "project"
  | reading => "reading"
  | other => "other"
  end.

Definition Priority_value (p : Priority) : string :=
  match p with
  | low => "low"
  | medium => "medium"
  | high => "high"
  | urgent => "urgent"
  end.

(** The [value]s of the [priorities] array the buttons are rendered from. *)
Definition priorities : list string := map Priority_value [low; medium; high; urgent].

(** The [task] prop.  [None] in an optional field is [undefined] or [null]. *)
Record Task := {
  id : string;
  title : string;
  description : option string;
  type : string;
  priority : option string;
  due_date : option string;
  estimated_duration : option Z;
}.

(** What the platform provides: [new Date(s).valueOf()] ([None]: an invalid
    date), [Date.prototype.toISOString], [parseInt] ([None]: NaN) and
    [String] applied to a number. *)
Class Platform := {
  Date_parse : string -> option Z;
  Date_toISOString : Z -> string;
  parseInt : string -> option Z;
  String_of_number : Z -> string;
}.

(** The component: its [task] prop and its hooks; the hook [x] of the
    source is the field [st_x].  A date object is its time value, [None]
    for an invalid date. *)
Record State := {
  task : option Task;
  st_title : string;
  st_description : string;
  st_type : string;
  st_priority : string;
  st_dueDate : option (option Z);
  st_estimatedDuration : string;
  st_showDatePicker : bool;
  st_loading : bool;
}.

Definition initial : State := {|
  task := None;
  st_title := "";
  st_description := "";
  st_type := "homework";
  st_priority := "medium";
  st_dueDate := None;
  st_estimatedDuration := "";
  st_showDatePicker := false;
  st_loading := false;
|}.

(** [s || fallback] for a string that may be absent. *)
Definition or_string (s : option string) (fallback : string) : string :=
  match s with
  | Some v => if truthy v then v else fallback
  | None => fallback
  end.

Section WithPlatform.
Context `{Platform}.

(** The effect that depends on [task]. *)
Definition useEffect_task (s : State) : State :=
  match s.(task) with
  | Some t =>
      {| task := s.(task);
         st_title := or_string (Some t.(title)) "";
         st_description := or_string t.(description) "";
         st_type := or_string (Some t.(type)) "homework";
         st_priority := or_string t.(priority) "medium";
         st_dueDate :=
           match t.(due_date) with
           | Some d => if truthy d then Some (Date_parse d) else None
           | None => None
           end;
         st_estimatedDuration :=
           match t.(estimated_duration) with
           | Some d => if d =? 0 then "" else String_of_number d
           | None => ""
           end;
         st_showDatePicker := s.(st_showDatePicker);
         st_loading := s.(st_loading) |}
  | None => s
  end.

(** What can happen to the modal between two saves: the parent passes a
    (new) task, upon which the effect runs, or the user edits a field. *)
Inductive Event : Type :=
  | PassTask (t : option Task)
  | ChangeTitle (text : string)
  | ChangeDescription (text : string)
  | PressType (t : TaskType)
  | PressPriority (p : Priority)
  | PickDate (date : option Z)
  | ChangeDuration (text : string).

Definition step (s : State) (ev : Event) : State :=
  match ev with
  | PassTask t =>
      useEffect_task
        {| task := t; st_title := s.(st_title); st_description := s.(st_description);
           st_type := s.(st_type); st_priority := s.(st_priority);
           st_dueDate := s.(st_dueDate);
           st_estimatedDuration := s.(st_estimatedDuration);
           st_showDatePicker := s.(st_showDatePicker); st_loading := s.(st_loading) |}
  | ChangeTitle text =>
      {| task := s.(task); st_title := text; st_description := s.(st_description);
         st_type := s.(st_type); st_priority := s.(st_priority);
         st_dueDate := s.(st_dueDate);
         st_estimatedDuration := s.(st_estimatedDuration);
         st_showDatePicker := s.(st_showDatePicker); st_loading := s.(st_loading) |}
  | ChangeDescription text =>
      {| task := s.(task); st_title := s.(st_title); st_description := text;
         st_type := s.(st_type); st_priority := s.(st_priority);
         st_dueDate := s.(st_dueDate);
         st_estimatedDuration := s.(st_estimatedDuration);
         st_showDatePicker := s.(st_showDatePicker); st_loading := s.(st_loading) |}
  | PressType t =>
      {| task := s.(task); st_title := s.(st_title);
         st_description := s.(st_description);
         st_type := TaskType_value t; st_priority := s.(st_priority);
         st_dueDate := s.(st_dueDate);
         st_estimatedDuration := s.(st_estimatedDuration);
         st_showDatePicker := s.(st_showDatePicker); st_loading := s.(st_loading) |}
  | PressPriority p =>
      {| task := s.(task); st_title := s.(st_title);
         st_description := s.(st_description);
         st_type := s.(st_type); st_priority := Priority_value p;
         st_dueDate := s.(st_dueDate);
         st_estimatedDuration := s.(st_estimatedDuration);
         st_showDatePicker := s.(st_showDatePicker); st_loading := s.(st_loading) |}
  | PickDate date =>
      {| task := s.(task); st_title := s.(st_title);
         st_description := s.(st_description);
         st_type := s.(st_type); st_priority := s.(st_priority);
         st_dueDate := match date with
                       | Some d => Some (Some d)
                       | None => s.(st_dueDate)
                       end;
         st_estimatedDuration := s.(st_estimatedDuration);
         st_showDatePicker := s.(st_showDatePicker); st_loading := s.(st_loading) |}
  | ChangeDuration text =>
      {| task := s.(task); st_title := s.(st_title);
         st_description := s.(st_description);
         st_type := s.(st_type); st_priority := s.(st_priority);
         st_dueDate := s.(st_dueDate);
         st_estimatedDuration := text;
         st_showDatePicker := s.(st_showDatePicker); st_loading := s.(st_loading) |}
  end.

Definition run (events : list Event) (s : State) : State :=
  fold_left step events s.

(** The object [handleSave] passes to [onSave]: the spread [...task] and
    the fields written over it. *)
Record Saved := {
  spread : Task;
  saved_title : string;
  saved_description : option string;
  saved_type : string;
  saved_priority : string;
  saved_due_date : option string;
  saved_estimated_duration : option (option Z);
}.

(** [handleSave], up to the call of [onSave]: [None] when it returns early
    or when building the argument throws ([toISOString] of an invalid
    date), in which case [onSave] is not called. *)
Definition handleSave (s : State) : option Saved :=
  match s.(task) with
  | None => None
  | Some t =>
      if negb (truthy (trim s.(st_title))) then None
      else
        match s.(st_dueDate) with
        | Some None => None
        | due =>
            Some {| spread := t;
                    saved_title := trim s.(st_title);
                    saved_description :=
                      if truthy (trim s.(st_description))
                      then Some (trim s.(st_description)) else None;
                    saved_type := s.(st_type);
                    saved_priority := s.(st_priority);
                    saved_due_date :=
                      match due with
                      | Some (Some d) => Some (Date_toISOString d)
                      | _ => None
                      end;
                    saved_estimated_duration :=
                      if truthy s.(st_estimatedDuration)
                      then Some (parseInt s.(st_estimatedDuration)) else None |}
        end
  end.
End WithPlatform.

(** What every reachable state satisfies: with a task at hand, the priority
    hook holds one of the four values or the non-empty priority string the
    task came with. *)
Definition priority_invariant (s : State) : Prop :=
  match s.(task) with
  | Some t =>
      s.(st_priority) ∈ priorities \/
      (t.(priority) = Some s.(st_priority) /\ truthy s.(st_priority) = true)
  | None => True
  end.

(** A platform for the examples. *)
Definition plain_platform : Platform := {|
  Date_parse := fun _ => None;
  Date_toISOString := fun _ => "1970-01-01T00:00:00.000Z";
  parseInt := fun _ => None;
  String_of_number := fun n => NilZero.string_of_int (Z.to_int n);
|}.

(** A task for the examples, with the priority it comes with. *)
Definition essay (p : option string) : Task := {|
  id := "42";
  title := "Essay";
  description := None;
  type := "homework";
  priority := p;
  due_date := None;
  estimated_duration := None;
|}.

(** *** What the events leave alone *)

(** Two states that differ at most in the date picker flag and the loading
    flag. *)
Definition same_fields (s1 s2 : State) : Prop :=
  s1.(task) = s2.(task) /\ s1.(st_title) = s2.(st_title) /\
  s1.(st_description) = s2.(st_description) /\ s1.(st_type) = s2.(st_type) /\
  s1.(st_priority) = s2.(st_priority) /\ s1.(st_dueDate) = s2.(st_dueDate) /\
  s1.(st_estimatedDuration) = s2.(st_estimatedDuration).

(** An event that leaves the date hook alone. *)
Definition keeps_date (ev : Event) : bool :=
  match ev with
  | PassTask _ => false
  | PickDate (Some _) => false
  | _ => true
  end.

(** An event that leaves the priority hook alone. *)
Definition keeps_priority (ev : Event) : bool :=
  match ev with
  | PassTask _ => false
  | PressPriority _ => false
  | _ => true
  end.

End TaskEditModal.

(** ** hooks/useAuth.ts, screens/ImportScreen.tsx, screens/CoursesScreen.tsx *)

Module Api.

(** Values of the JavaScript side: what [response.json()] resolves to and
    what the state setters receive. *)
#[local] Unset Elimination Schemes.
Inductive JS : Type :=
  | JUndefined
  | JNull
  | JBool (b : bool)
  | JNum (n : Z)
  | JStr (s : string)
  | JArr (items : list JS)
  | JObj (fields : list (string * JS)).
#[local] Set Elimination Schemes.

Definition js_truthy (v : JS) : bool :=
  match v with
  | JUndefined | JNull => false
  | JBool b => b
  | JNum n => negb (n =? 0)
  | JStr s => truthy s
  | JArr _ | JObj _ => true
  end.

Fixpoint js_field (fields : list (string * JS)) (name : string) : JS :=
  match fields with
  | [] => JUndefined
  | (k, v) :: rest => if String.eqb k name then v else js_field rest name
  end.

(** The property read [v.name]: a [TypeError] on [undefined] and [null]. *)
Definition js_get (v : JS) (name : string) : outcome JS :=
  match v with
  | JUndefined | JNull => Throw "TypeError: Cannot read property"
  | JObj fields => Ret (js_field fields name)
  | JArr items =>
      if String.eqb name "length" then Ret (JNum (Z.of_nat (length items)))
      else Ret JUndefined
  | JStr s =>
      if String.eqb name "length" then Ret (JNum (js_length s))
      else Ret JUndefined
  | JBool _ | JNum _ => Ret JUndefined
  end.

(** [a || b] *)
Definition js_or (a b : JS) : JS := if js_truthy a then a else b.

Record Session := {
  access_token : string;
}.

Record Response := {
  ok : bool;
  status : Z;
  json : outcome JS;      (* [Throw]: the body is not JSON *)
}.

Inductive FetchReply : Type :=
  | NetworkError (message : string)
  | Reply (r : Response).

Record Asset := {
  uri : string;
  name : string;
}.

Record PickResult := {
  canceled : bool;
  assets : option (list Asset);
}.

Inductive Body : Type :=
  | NoBody
  | JsonBody (payload : JS)
  | FormBody (fileUri fileName fileType : string).

(** The text of an alert: a literal, a value shown as it is, or a template
    [`${v}suffix`]. *)
Inductive Message : Type :=
  | Text (s : string)
  | Value (v : JS)
  | Template (v : JS) (suffix : string).

Inductive Event : Type :=
  | Fetch (method url : string) (headers : gmap string string) (body : Body)
  | Alert (title : string) (message : Message)
  | ConsoleError (label : string)
  | SetState (hook : string) (value : JS).

(** The world a handler runs in: the auth session the provider resolves to
    (or its rejection), the replies of the network in the order of the
    requests (an exhausted script is a network failure), the result of the
    document picker, and the trace of what the handler did. *)
Record World := {
  session : outcome (option Session);
  replies : list FetchReply;
  picker : outcome PickResult;
  trace : list Event;
}.

(** Recording an event; alerts, console output and state setters do not
    throw. *)
Definition emit (ev : Event) : Eff.M unit :=
  Eff.effect (fun w =>
    {| session := w.(session); replies := w.(replies); picker := w.(picker);
       trace := (w.(trace) ++ [ev])%list |}).

Definition Alert_alert (title : string) (message : Message) : Eff.M unit :=
  emit (Alert title message).

Definition console_error (label : string) : Eff.M unit :=
  emit (ConsoleError label).

Definition setState (hook : string) (value : JS) : Eff.M unit :=
  emit (SetState hook value).

Definition supabase_auth_getSession : Eff.M (option Session) :=
  fun w => (w.(session), w).

Definition DocumentPicker_getDocumentAsync : Eff.M PickResult :=
  fun w => (w.(picker), w).

Definition fetch (method url : string) (headers : gmap string string) (body : Body)
    : Eff.M Response :=
  fun w =>
    let tr := (w.(trace) ++ [Fetch method url headers body])%list in
    match w.(replies) with
    | [] =>
        (Throw "Network request failed",
         {| session := w.(session); replies := []; picker := w.(picker); trace := tr |})
    | NetworkError message :: rest =>
        (Throw message,
         {| session := w.(session); replies := rest; picker := w.(picker); trace := tr |})
    | Reply r :: rest =>
        (Ret r,
         {| session := w.(session); replies := rest; picker := w.(picker); trace := tr |})
    end.

(** *** hooks/useAuth.ts *)

(** [{ Authorization: `Bearer ${token}` }] *)
Definition bearer_headers (token : string) : gmap string string :=
  {[ "Authorization" := ("Bearer " ++ token)%string ]}.
Arguments bearer_headers : simpl never.

Definition getAuthHeaders : Eff.M (gmap string string) :=
  s <- supabase_auth_getSession ;;
  match s with
  | Some sess =>
      if truthy sess.(access_token)
      then Eff.ret (bearer_headers sess.(access_token))
      else Eff.ret ∅
  | None => Eff.ret ∅
  end.

(** [{ ...headers, 'Content-Type': 'application/json' }] *)
Definition json_headers (headers : gmap string string) : gmap string string :=
  <[ "Content-Type" := "application/json" ]> headers.
Arguments json_headers : simpl never.

(** *** The URLs requested

    Every screen declares its own [API_BASE_URL]; all but the legacy Today
    screen use the first value. *)
Definition API_BASE_URL : string := "http://172.20.10.2:5050/v1".
Definition API_BASE_URL_legacy : string := "http://localhost:5050/v1".

(** The URL templates of the [fetch] calls of the screens. *)
Inductive Endpoint : Type :=
  | IcsSync
  | ExtractDeadlines
  | ImportIcs
  | Courses
  | CourseItem (id : string)
  | Profile
  | Tasks
  | TaskItem (id : string)
  | TaskStatus (id : string)
  | TasksToday
  | TodayTasks
  | NextAction
  | Stats (period : string)
  | LegacyTasksToday (userId : string)
  | LegacyNextAction (userId : string).

Definition endpoint_url (e : Endpoint) : string :=
  match e with
  | IcsSync => API_BASE_URL ++ "/ics/sync"
  | ExtractDeadlines => API_BASE_URL ++ "/extract-deadlines"
  | ImportIcs => API_BASE_URL ++ "/import-ics"
  | Courses => API_BASE_URL ++ "/courses"
  | CourseItem id => API_BASE_URL ++ "/courses/" ++ id
  | Profile => API_BASE_URL ++ "/profile"
  | Tasks => API_BASE_URL ++ "/tasks"
  | TaskItem id => API_BASE_URL ++ "/tasks/" ++ id
  | TaskStatus id => API_BASE_URL ++ "/tasks/" ++ id ++ "/status"
  | TasksToday => API_BASE_URL ++ "/tasks/today"
  | TodayTasks => API_BASE_URL ++ "/today-tasks"
  | NextAction => API_BASE_URL ++ "/next-action"
  | Stats period => API_BASE_URL ++ "/stats?period=" ++ period
  | LegacyTasksToday userId => API_BASE_URL_legacy ++ "/tasks/today?user_id=" ++ userId
  | LegacyNextAction userId => API_BASE_URL_legacy ++ "/next-action?user_id=" ++ userId
  end%string.

Definition show_number (n : Z) : string := NilZero.string_of_int (Z.to_int n).

(** [if (!res.ok) throw new Error(`HTTP ${res.status}`)] *)
Definition throw_unless_ok (res : Response) : Eff.M (W := World) unit :=
  if negb res.(ok) then Eff.throw ("HTTP " ++ show_number res.(status))%string
  else Eff.ret tt.

(** [e.message || fallback] *)
Definition message_or (e fallback : string) : string :=
  if truthy e then e else fallback.

(** *** screens/ImportScreen.tsx *)

Definition handleIcsSync_try (icsUrl : string) : Eff.M unit :=
  headers <- getAuthHeaders ;;
  response <- fetch "POST" (endpoint_url IcsSync) (json_headers headers)
                (JsonBody (JObj [("ics_url", JStr icsUrl)])) ;;
  data <- Eff.lift response.(json) ;;
  if response.(ok) then
    created <- Eff.lift (js_get data "time_blocks_created") ;;
    Alert_alert "Succès" (Template created " cours importés") ;;;
    setState "icsUrl" (JStr "")
  else
    detail <- Eff.lift (js_get data "detail") ;;
    Alert_alert "Erreur" (Value (js_or detail (JStr "Erreur lors de l'import ICS"))).

Definition handleIcsSync_catch (error : string) : Eff.M unit :=
  console_error "ICS sync error:" ;;;
  Alert_alert "Erreur" (Text "Impossible de se connecter au serveur").

Definition handleIcsSync_finally : Eff.M unit := setState "icsLoading" (JBool false).

Definition handleIcsSync (icsUrl : string) : Eff.M unit :=
  if negb (truthy (trim icsUrl)) then
    Alert_alert "Erreur" (Text "Veuillez entrer une URL ICS")
  else
    setState "icsLoading" (JBool true) ;;;
    Eff.try_catch_finally (handleIcsSync_try icsUrl) handleIcsSync_catch
      handleIcsSync_finally.

(** The [try] block of [handlePdfUpload]; its [return] when the picker was
    cancelled leaves the block normally, through [finally]. *)
Definition handlePdfUpload_try : Eff.M unit :=
  result <- DocumentPicker_getDocumentAsync ;;
  if result.(canceled) then Eff.ret tt
  else
    setState "pdfLoading" (JBool true) ;;;
    file <- Eff.lift
      match result.(assets) with
      | Some (asset :: _) => Ret asset
      | _ => Throw "TypeError: Cannot read property"
      end ;;
    headers <- getAuthHeaders ;;
    response <- fetch "POST" (endpoint_url ExtractDeadlines) headers
                  (FormBody file.(uri) file.(name) "application/pdf") ;;
    data <- Eff.lift response.(json) ;;
    if response.(ok) then
      tasks <- Eff.lift (js_get data "tasks") ;;
      count <- Eff.lift (js_get tasks "length") ;;
      Alert_alert "Succès" (Template count " tâches extraites avec l'IA")
    else
      detail <- Eff.lift (js_get data "detail") ;;
      Alert_alert "Erreur" (Value (js_or detail (JStr "Erreur lors de l'extraction"))).

Definition handlePdfUpload_catch (error : string) : Eff.M unit :=
  console_error "PDF upload error:" ;;;
  Alert_alert "Erreur" (Text "Impossible d'importer le PDF").

Definition handlePdfUpload_finally : Eff.M unit := setState "pdfLoading" (JBool false).

Definition handlePdfUpload : Eff.M unit :=
  Eff.try_catch_finally handlePdfUpload_try handlePdfUpload_catch
    handlePdfUpload_finally.

(** *** screens/CoursesScreen.tsx *)

Definition load_try : Eff.M unit :=
  headers <- getAuthHeaders ;;
  res <- fetch "GET" (endpoint_url Courses) headers NoBody ;;
  throw_unless_ok res ;;;
  data <- Eff.lift res.(json) ;;
  courses <- Eff.lift (js_get data "courses") ;;
  setState "courses" (js_or courses (JArr [])).

Definition load_catch (e : string) : Eff.M unit :=
  setState "error" (JStr (message_or e "Failed to load courses")).

Definition load_finally : Eff.M unit :=
  setState "loading" (JBool false) ;;;
  setState "refreshing" (JBool false).

Definition load : Eff.M unit :=
  setState "error" JNull ;;;
  Eff.try_catch_finally load_try load_catch load_finally.

(** [saveCourse] calls [load()] without awaiting it.  The call runs [load]
    up to its first [await], that is through [setError(null)]; what is left
    of it, [load_resumed], runs once [saveCourse] has gone through its
    [finally] and returned.  [saveCourse] returns what it leaves under way,
    for [resume] to run. *)
Inductive Pending : Type :=
  | NothingPending
  | ReloadPending.

Definition load_resumed : Eff.M unit :=
  Eff.try_catch_finally load_try load_catch load_finally.

Definition resume (p : Pending) : Eff.M unit :=
  match p with
  | NothingPending => Eff.ret tt
  | ReloadPending => load_resumed
  end.

Definition saveCourse_try (newCourseName : string) : Eff.M Pending :=
  headers <- getAuthHeaders ;;
  res <- fetch "POST" (endpoint_url Courses) (json_headers headers)
           (JsonBody (JObj [("name", JStr (trim newCourseName))])) ;;
  throw_unless_ok res ;;;
  Eff.lift res.(json) ;;;
  setState "modalVisible" (JBool false) ;;;
  setState "newCourseName" (JStr "") ;;;
  setState "loading" (JBool true) ;;;
  setState "error" JNull ;;;
  Eff.ret ReloadPending.

Definition saveCourse_catch (e : string) : Eff.M Pending :=
  setState "error" (JStr (message_or e "Erreur lors de la création")) ;;;
  Eff.ret NothingPending.

Definition saveCourse_finally : Eff.M unit := setState "saving" (JBool false).

Definition saveCourse (newCourseName : string) : Eff.M Pending :=
  if negb (truthy (trim newCourseName)) then
    setState "error" (JStr "Le nom du cours est requis") ;;;
    Eff.ret NothingPending
  else
    setState "saving" (JBool true) ;;;
    setState "error" JNull ;;;
    Eff.try_catch_finally (saveCourse_try newCourseName) saveCourse_catch
      saveCourse_finally.

(** [saveCourse] and, after it, the reload it started. *)
Definition saveCourse_and_reload (newCourseName : string) : Eff.M unit :=
  p <- saveCourse newCourseName ;;
  resume p.

Record Course := {
  id : string;
  course_name : string;
  code : option string;
  color : option string;
  professor : option string;
  credits : option Z;
  semester : option string;
  description : option string;
}.

Definition js_of_string (s : option string) : JS :=
  match s with Some v => JStr v | None => JNull end.

(** [updateCourse], the [onSave] callback handed to the course edit modal:
    it stores the message and throws the error again for the modal. *)
Definition updateCourse (updatedCourse : Course) : Eff.M unit :=
  Eff.try_catch
    (headers <- getAuthHeaders ;;
     let payload := JObj [
       ("name", JStr updatedCourse.(course_name));
       ("code", js_of_string updatedCourse.(code));
       ("color", js_of_string updatedCourse.(color));
       ("professor", js_of_string updatedCourse.(professor));
       ("credits", match updatedCourse.(credits) with
                   | Some n => JNum n | None => JNull end);
       ("semester", js_of_string updatedCourse.(semester));
       ("description", js_of_string updatedCourse.(description))] in
     res <- fetch "PATCH" (endpoint_url (CourseItem updatedCourse.(id)))
              (json_headers headers) (JsonBody payload) ;;
     throw_unless_ok res ;;;
     load)
    (fun e =>
       setState "error" (JStr (message_or e "Erreur lors de la mise à jour")) ;;;
       Eff.throw e).

(** *** What the trace of a handler shows *)

(** The endpoints requested, each as its method and URL. *)
Definition requested (events : list Event) : list (string * string) :=
  omap (fun ev => match ev with
                  | Fetch method url _ _ => Some (method, url)
                  | _ => None
                  end) events.

(** The user sees the failure: an alert, or a message stored in the [error]
    hook the screen renders. *)
Definition user_facing (ev : Event) : bool :=
  match ev with
  | Alert _ _ => true
  | SetState hook (JStr _) => String.eqb hook "error"
  | _ => false
  end.








Definition offline (s : outcome (option Session)) : World := {|
  session := s;
  replies := [];
  picker := Ret {| canceled := false;
                   assets := Some [{| uri := "file:///syllabus.pdf";
                                      name := "syllabus.pdf" |}] |};
  trace := [];
|}.

(** *** Further handlers of screens/CoursesScreen.tsx and screens/TasksScreen *)

(** [deleteCourse]: the request is made with [{ method: 'DELETE' }] alone. *)
Definition deleteCourse (course : Course) : Eff.M unit :=
  Eff.try_catch
    (res <- fetch "DELETE" (endpoint_url (CourseItem course.(id))) ∅ NoBody ;;
     throw_unless_ok res ;;;
     load)
    (fun e => setState "error" (JStr (message_or e "Erreur lors de la suppression"))).

Definition fetchTasks_try : Eff.M unit :=
  headers <- getAuthHeaders ;;
  response <- fetch "GET" (endpoint_url Tasks) headers NoBody ;;
  if response.(ok) then
    data <- Eff.lift response.(json) ;;
    tasks <- Eff.lift (js_get data "tasks") ;;
    setState "tasks" (js_or tasks (JArr []))
  else Eff.ret tt.

Definition fetchTasks : Eff.M unit :=
  Eff.try_catch_finally fetchTasks_try
    (fun error => console_error "Error fetching tasks:")
    (setState "loading" (JBool false) ;;; setState "refreshing" (JBool false)).

Definition toggled (currentStatus : string) : string :=
  if String.eqb currentStatus "completed" then "todo" else "completed".

Definition toggleTaskStatus (taskId currentStatus : string) : Eff.M unit :=
  Eff.try_catch
    (headers <- getAuthHeaders ;;
     let newStatus := toggled currentStatus in
     response <- fetch "PATCH" (endpoint_url (TaskItem taskId)) (json_headers headers)
                   (JsonBody (JObj [("status", JStr newStatus)])) ;;
     if response.(ok) then Eff.spawn fetchTasks else Eff.ret tt)
    (fun error => console_error "Error toggling task:").

(** *** Reading the answers of the environment *)

Definition resolves {A : Type} (o : outcome A) : bool :=
  match o with
  | Ret _ => true
  | Throw _ => false
  end.

(** The picker returned a file. *)
Definition picked (p : outcome PickResult) : bool :=
  match p with
  | Ret r =>
      negb r.(canceled) &&
      match r.(assets) with
      | Some (_ :: _) => true
      | _ => false
      end
  | Throw _ => false
  end.

(** The next reply of the network is a response with an OK status. *)
Definition next_reply_ok (rs : list FetchReply) : bool :=
  match rs with
  | Reply r :: _ => r.(ok)
  | _ => false
  end.

(** The next reply is a response with an OK status and a JSON body. *)
Definition next_reply_json (rs : list FetchReply) : bool :=
  match rs with
  | Reply r :: _ => r.(ok) && resolves r.(json)
  | _ => false
  end.

(** What a handler adds to the trace. *)
Definition emitted (handler : Eff.M unit) (w : World) (events : list Event) : Prop :=
  (snd (handler w)).(trace) = (w.(trace) ++ events)%list.

End Api.

(** * Properties *)

Import Gamification.

(** ** The level table *)

Lemma calculateLevel_unfold (points : Z) :
  calculateLevel points =
    if points >=? 12000 then 10 else if points >=? 8000 then 9
    else if points >=? 5500 then 8 else if points >=? 3500 then 7
    else if points >=? 2000 then 6 else if points >=? 1000 then 5
    else if points >=? 500 then 4 else if points >=? 250 then 3
    else if points >=? 100 then 2 else if points >=? 0 then 1 else 1.
Proof. reflexivity. Qed.

Lemma calculateLevel_range (points : Z) : 1 <= calculateLevel points <= 10.
Proof.
  rewrite calculateLevel_unfold.
  repeat match goal with |- context [?a >=? ?b] => destruct (Z.geb_spec a b) end; lia.
Qed.

Lemma calculateLevel_mono (a b : Z) : a <= b -> calculateLevel a <= calculateLevel b.
Proof.
  intros Hab. rewrite !calculateLevel_unfold.
  repeat match goal with |- context [?a >=? ?b] => destruct (Z.geb_spec a b) end; lia.
Qed.

(** The entry the loop stops at: the last one of the table (in table order)
    whose threshold does not exceed the points. *)
Lemma calculateLevel_from_entry (n : nat) (points : Z) :
  (exists i e, (i < n)%nat /\ LEVELS !! i = Some e /\ e.(xp) <= points /\
      calculateLevel_from n points = e.(level) /\
      forall j e', (i < j < n)%nat -> LEVELS !! j = Some e' -> points < e'.(xp)) \/
  (calculateLevel_from n points = 1 /\
      forall j e', (j < n)%nat -> LEVELS !! j = Some e' -> points < e'.(xp)).
Proof.
  induction n as [|n IH]; simpl.
  - right. split; [reflexivity|]. intros; lia.
  - destruct (LEVELS !! n) as [l|] eqn:Hl.
    + destruct (Z.geb_spec points (xp l)) as [Hge|Hlt].
      * left. exists n, l. repeat split; try lia; auto.
      * destruct IH as [(i & e & Hi & He & Hle & Hr & Hmax)|[Hr Hall]].
        -- left. exists i, e. repeat split; auto; try lia.
           intros j e' Hj Hj'. destruct (decide (j = n)) as [->|Hne].
           ++ rewrite Hl in Hj'. injection Hj' as <-. lia.
           ++ apply (Hmax j); auto. lia.
        -- right. split; auto. intros j e' Hj Hj'.
           destruct (decide (j = n)) as [->|Hne].
           ++ rewrite Hl in Hj'. injection Hj' as <-. lia.
           ++ apply (Hall j); auto. lia.
    + destruct IH as [(i & e & Hi & He & Hle & Hr & Hmax)|[Hr Hall]].
      * left. exists i, e. repeat split; auto; try lia.
        intros j e' Hj Hj'. destruct (decide (j = n)) as [->|Hne].
        -- congruence.
        -- apply (Hmax j); auto. lia.
      * right. split; auto. intros j e' Hj Hj'.
        destruct (decide (j = n)) as [->|Hne]; [congruence|].
        apply (Hall j); auto. lia.
Qed.

(** The table is in ascending order of thresholds. *)
Lemma LEVELS_ascending (i j : nat) (a b : Level) :
  LEVELS !! i = Some a -> LEVELS !! j = Some b -> (i <= j)%nat -> a.(xp) <= b.(xp).
Proof.
  intros Ha Hb Hij.
  assert (Hi : (i < 10)%nat) by (apply lookup_lt_Some in Ha; exact Ha).
  assert (Hj : (j < 10)%nat) by (apply lookup_lt_Some in Hb; exact Hb).
  do 10 (destruct i as [|i]; [ do 10 (destruct j as [|j];
    [ simpl in Ha, Hb; injection Ha as <-; injection Hb as <-; simpl; lia | ]); lia | ]).
  lia.
Qed.

(** C1: for every non-negative [points], [calculateLevel] returns the level
    of the greatest entry of [LEVELS] whose threshold is at most [points];
    the thresholds are 0, 100, 250, 500, 1000, 2000, 3500, 5500, 8000, 12000
    for the levels 1 to 10; the result lies between 1 and 10 and is
    non-decreasing in [points]. *)
Theorem calculateLevel_table_lookup :
  map (fun l => (l.(level), l.(xp))) LEVELS =
    [(1, 0); (2, 100); (3, 250); (4, 500); (5, 1000); (6, 2000); (7, 3500);
     (8, 5500); (9, 8000); (10, 12000)] /\
  forall points : Z, 0 <= points ->
    (exists e, e ∈ LEVELS /\ e.(xp) <= points /\
       (forall e', e' ∈ LEVELS -> e'.(xp) <= points -> e'.(xp) <= e.(xp)) /\
       calculateLevel points = e.(level)) /\
    1 <= calculateLevel points <= 10 /\
    (forall points', points <= points' ->
       calculateLevel points <= calculateLevel points').
Proof.
  split; [reflexivity|].
  intros points Hpos. split; [|split].
  - destruct (calculateLevel_from_entry (length LEVELS) points)
      as [(i & e & Hi & He & Hle & Hr & Hmax)|[_ Hall]].
    + exists e. split; [eapply list_elem_of_lookup_2; eauto|].
      split; [exact Hle|]. split; [|exact Hr].
      intros e' Hin Hle'.
      apply list_elem_of_lookup_1 in Hin as [j Hj].
      destruct (decide (j <= i)%nat) as [Hji|Hji].
      * eapply LEVELS_ascending; eauto.
      * assert (points < xp e'); [|lia].
        apply (Hmax j); auto. split; [lia|]. eapply lookup_lt_Some; eauto.
    + exfalso. specialize (Hall 0%nat _ ltac:(simpl; lia) eq_refl). simpl in Hall. lia.
  - apply calculateLevel_range.
  - intros. apply calculateLevel_mono. assumption.
Qed.

Lemma calculateLevel_table_lookup_witness :
  0 <= 300 /\ calculateLevel 300 = 3 /\ calculateLevel 300 <= calculateLevel 12000.
Proof.
  split; [lia|].
  destruct calculateLevel_table_lookup as [_ Hspec].
  destruct (Hspec 300 ltac:(lia)) as (_ & _ & Hmono).
  split; [reflexivity|]. apply Hmono. lia.
Defined.

(** ** Task XP *)

Lemma calculateTaskXP_priority (p : string) (d : option Z) (due : option string) :
  calculateTaskXP {| priority := p; estimated_duration := d; due_date := due |} =
    (if String.eqb p "high" then 25
     else if String.eqb p "medium" then 20
     else if String.eqb p "low" then 15 else 10) +
    match d with
    | Some v => if v =? 0 then 0 else Z.min (v * 2) 30
    | None => 0
    end.
Proof.
  unfold calculateTaskXP; simpl.
  destruct (String.eqb p "high"), (String.eqb p "medium"), (String.eqb p "low"),
    d as [v|]; try destruct (v =? 0); lia.
Qed.

(** C6, as stated, fails: with a negative duration the result drops below the
    base of 10. *)
Lemma calculateTaskXP_range_counterexample :
  calculateTaskXP
    {| priority := "low"; estimated_duration := Some (-10); due_date := None |} = -5 /\
  ~ (forall task, 10 <= calculateTaskXP task <= 55).
Proof.
  split; [reflexivity|].
  intros Hall.
  specialize (Hall {| priority := "low"; estimated_duration := Some (-10);
                      due_date := None |}).
  vm_compute in Hall. destruct Hall as [Hlow _]. apply Hlow. reflexivity.
Qed.

(** C6 (amended): for every integer duration from -2^52 on, the range in
    which the sums of the function are exact, the priority bonus is 15, 10,
    5 for 'high', 'medium', 'low' and nothing for any other priority,
    'urgent' included, so that an 'urgent' task earns strictly less than the
    same task with one of the three; the result never exceeds 55, is at
    least 10 when the duration is absent or non-negative, and stays within
    the exact range. *)
Theorem calculateTaskXP_bonus_and_range (d : option Z) (due : option string) :
  match d with Some v => - 2 ^ 52 <= v | None => True end ->
  let earned p :=
    calculateTaskXP {| priority := p; estimated_duration := d; due_date := due |} in
  earned "high" = earned "urgent" + 15 /\
  earned "medium" = earned "urgent" + 10 /\
  earned "low" = earned "urgent" + 5 /\
  (forall p, p <> "high" -> p <> "medium" -> p <> "low" -> earned p = earned "urgent") /\
  earned "urgent" < earned "low" /\
  earned "urgent" < earned "medium" /\
  earned "urgent" < earned "high" /\
  (forall p, - 2 ^ 53 <= earned p <= 55) /\
  (match d with Some v => 0 <= v | None => True end -> forall p, 10 <= earned p).
Proof.
  intros Hrange earned. subst earned. cbv beta.
  rewrite !calculateTaskXP_priority. simpl String.eqb. cbv iota.
  assert (H52 : 2 ^ 53 = 2 * 2 ^ 52) by reflexivity.
  repeat split; try lia.
  - intros p H1 H2 H3. rewrite calculateTaskXP_priority.
    apply String.eqb_neq in H1, H2, H3. rewrite H1, H2, H3. reflexivity.
  - rewrite calculateTaskXP_priority.
    destruct (String.eqb p "high"), (String.eqb p "medium"), (String.eqb p "low"),
      d as [v|]; try destruct (v =? 0); lia.
  - rewrite calculateTaskXP_priority.
    destruct (String.eqb p "high"), (String.eqb p "medium"), (String.eqb p "low"),
      d as [v|]; try destruct (v =? 0); lia.
  - intros Hd p. rewrite calculateTaskXP_priority.
    destruct (String.eqb p "high"), (String.eqb p "medium"), (String.eqb p "low"),
      d as [v|]; try destruct (Z.eqb_spec v 0); lia.
Qed.

Lemma calculateTaskXP_bonus_and_range_witness :
  calculateTaskXP
    {| priority := "urgent"; estimated_duration := Some 20; due_date := None |} = 40 /\
  calculateTaskXP
    {| priority := "urgent"; estimated_duration := Some (-3); due_date := None |} <
  calculateTaskXP
    {| priority := "low"; estimated_duration := Some (-3); due_date := None |} /\
  10 <= calculateTaskXP
    {| priority := "urgent"; estimated_duration := Some 20; due_date := None |}.
Proof.
  split; [reflexivity|]. split.
  - destruct (calculateTaskXP_bonus_and_range (Some (-3)) None ltac:(simpl; lia))
      as (_ & _ & _ & _ & Hless & _).
    exact Hless.
  - destruct (calculateTaskXP_bonus_and_range (Some 20) None ltac:(simpl; lia))
      as (_ & _ & _ & _ & _ & _ & _ & _ & Hlow).
    apply Hlow. lia.
Defined.

(** ** Level progress *)

Lemma clamp_unit_interval (q : Q) : (0 <= Qmin (Qmax q 0) 1 <= 1)%Q.
Proof.
  split.
  - apply Q.min_glb; [apply Q.le_max_r | discriminate].
  - apply Q.le_min_r.
Qed.

Lemma clamped_division (a b : Z) :
  b <> 0 ->
  exists q, Math_min (Math_max (js_div a b) 0) 1 = Finite q /\ (0 <= q <= 1)%Q.
Proof.
  intros Hb. unfold js_div.
  destruct (Z.eqb_spec b 0) as [|_]; [contradiction|].
  simpl. eexists; split; [reflexivity|]. apply clamp_unit_interval.
Qed.

Lemma levelSpan_cases (s : PlayerStats) :
  1 <= s.(currentLevel) <= 9 ->
  levelSpan s ∈ [100; 150; 250; 500; 1000; 1500; 2000; 2500; 4000].
Proof.
  intros Hl. unfold levelSpan.
  assert (Hc : s.(currentLevel) = 1 \/ s.(currentLevel) = 2 \/ s.(currentLevel) = 3 \/
               s.(currentLevel) = 4 \/ s.(currentLevel) = 5 \/ s.(currentLevel) = 6 \/
               s.(currentLevel) = 7 \/ s.(currentLevel) = 8 \/ s.(currentLevel) = 9) by lia.
  clear Hl.
  repeat destruct Hc as [Hc|Hc]; rewrite Hc; vm_compute; set_solver.
Qed.

Lemma levelSpan_below_table (s : PlayerStats) :
  s.(currentLevel) < 0 -> levelSpan s = 12000.
Proof.
  intros Hl. unfold levelSpan, getXPForNextLevel, getXPForCurrentLevel, LEVELS.
  cbn [List.find level].
  repeat match goal with
         | |- context [?a =? ?b] => destruct (Z.eqb_spec a b); [lia|]
         end.
  reflexivity.
Qed.

(** C10: for every stats whose level is a level of the table below the
    maximum level 10, the divisor of [getLevelProgress] is nonzero and the
    result is a number between 0 and 1; the same holds for every negative
    level; at level 10 the divisor is zero. *)
Theorem getLevelProgress_unit_interval :
  (forall s : PlayerStats,
     s.(currentLevel) ∈ map level LEVELS -> s.(currentLevel) < 10 ->
     levelSpan s <> 0 /\
     exists q, getLevelProgress s = Finite q /\ (0 <= q <= 1)%Q) /\
  (forall s : PlayerStats, s.(currentLevel) < 0 ->
     levelSpan s <> 0 /\
     exists q, getLevelProgress s = Finite q /\ (0 <= q <= 1)%Q) /\
  (forall s : PlayerStats, s.(currentLevel) = 10 -> levelSpan s = 0).
Proof.
  split; [|split].
  - intros s Hin Hlt.
    assert (Hl : 1 <= s.(currentLevel) <= 9).
    { cbn in Hin. repeat (apply elem_of_cons in Hin as [Hin|Hin]; [lia|]).
      inversion Hin. }
    assert (Hspan : levelSpan s <> 0).
    { pose proof (levelSpan_cases s Hl) as Hc.
      repeat (apply elem_of_cons in Hc as [Hc|Hc]; [lia|]).
      inversion Hc. }
    split; [exact Hspan|].
    unfold getLevelProgress. apply clamped_division. exact Hspan.
  - intros s Hneg.
    assert (Hspan : levelSpan s <> 0) by (rewrite (levelSpan_below_table s Hneg); lia).
    split; [exact Hspan|].
    unfold getLevelProgress. apply clamped_division. exact Hspan.
  - intros s Hs. unfold levelSpan. rewrite Hs. reflexivity.
Qed.

Lemma getLevelProgress_unit_interval_witness :
  let s := set_currentLevel 3 (set_totalXP 300 getDefaultStats) in
  levelSpan s <> 0 /\
  exists q, getLevelProgress s = Finite q /\ (0 <= q <= 1)%Q.
Proof.
  destruct getLevelProgress_unit_interval as [Htable _].
  apply Htable.
  - cbn. do 2 apply list_elem_of_further. apply list_elem_of_here.
  - simpl. lia.
Defined.

(** ** Storage: load and save *)

Section StorageFacts.
Context `{Runtime}.

Lemma getItem_run (key : string) (w : World) :
  exists r w1, AsyncStorage_getItem key w = (r, w1) /\
    w1.(store) = w.(store) /\
    w1.(accesses) = (w.(accesses) ++ [GetItem key])%list /\
    w1.(clock) = w.(clock) /\
    (r = Throw "AsyncStorage.getItem rejected" /\ hd false w.(faults) = true \/
     r = Ret (w.(store) !! key) /\ hd false w.(faults) = false).
Proof.
  unfold AsyncStorage_getItem, next_fault, record_access; simpl.
  destruct (faults w) as [|[|] fs]; simpl; eauto 10.
Qed.

Lemma setItem_run (key value : string) (w : World) :
  exists r w1, AsyncStorage_setItem key value w = (r, w1) /\
    w1.(accesses) = (w.(accesses) ++ [SetItem key value])%list /\
    w1.(clock) = w.(clock) /\
    (r = Throw "AsyncStorage.setItem rejected" /\ hd false w.(faults) = true /\
       w1.(store) = w.(store) \/
     r = Ret tt /\ hd false w.(faults) = false /\
       w1.(store) = <[key := value]> w.(store)).
Proof.
  unfold AsyncStorage_setItem, next_fault, record_access, write_store; simpl.
  destruct (faults w) as [|[|] fs]; simpl; eauto 10.
Qed.

Lemma loadPlayerStats_run (w : World) :
  exists s w1, loadPlayerStats w = (Ret s, w1) /\
    w1.(store) = w.(store) /\
    w1.(accesses) = (w.(accesses) ++ [GetItem STATS_KEY])%list /\
    w1.(clock) = w.(clock) /\
    (hd false w.(faults) = true -> s = getDefaultStats) /\
    (w.(store) !! STATS_KEY = None -> s = getDefaultStats).
Proof.
  unfold loadPlayerStats, Eff.try_catch, Eff.bind.
  destruct (getItem_run STATS_KEY w) as (r & w1 & -> & Hs & Ha & Hc & Hr).
  destruct Hr as [[-> Hf]|[-> Hf]].
  - simpl. eexists _, _. split; [reflexivity|]. simpl. auto 10.
  - destruct (store w !! STATS_KEY) as [blob|] eqn:Hblob.
    + destruct (truthy blob).
      * unfold Eff.lift. destruct (JSON_parse blob) as [s|e].
        -- exists s, w1. repeat split; auto; congruence.
        -- simpl. eexists _, _. split; [reflexivity|]. simpl.
           repeat split; auto; congruence.
      * exists getDefaultStats, w1. repeat split; auto.
    + exists getDefaultStats, w1. repeat split; auto.
Qed.

Lemma savePlayerStats_run (s : PlayerStats) (w : World) :
  exists w1, savePlayerStats s w = (Ret tt, w1) /\
    w1.(accesses) = (w.(accesses) ++ [SetItem STATS_KEY (JSON_stringify s)])%list /\
    w1.(clock) = w.(clock) /\
    (hd false w.(faults) = true /\ w1.(store) = w.(store) \/
     hd false w.(faults) = false /\
       w1.(store) = <[STATS_KEY := JSON_stringify s]> w.(store)).
Proof.
  unfold savePlayerStats, Eff.try_catch.
  destruct (setItem_run STATS_KEY (JSON_stringify s) w)
    as (r & w1 & -> & Ha & Hc & Hr).
  destruct Hr as [(-> & Hf & Hs)|(-> & Hf & Hs)].
  - simpl. eexists. split; [reflexivity|]. simpl. auto 10.
  - exists w1. auto 10.
Qed.

(** C3: [loadPlayerStats] always returns: when the read of the store
    rejects, or the store holds no stats blob, it returns the default stats
    (no XP, level 1, all counters 0, no badge); [savePlayerStats] always
    returns normally, also when the write rejects. *)
Theorem storage_errors_fall_back_to_defaults (w : World) :
  (exists s w1, loadPlayerStats w = (Ret s, w1)) /\
  (hd false w.(faults) = true ->
     exists w1, loadPlayerStats w = (Ret getDefaultStats, w1)) /\
  (w.(store) !! STATS_KEY = None ->
     exists w1, loadPlayerStats w = (Ret getDefaultStats, w1)) /\
  getDefaultStats =
    {| totalXP := 0; currentLevel := 1; tasksCompleted := 0; currentStreak := 0;
       longestStreak := 0; pomodoroSessions := 0; totalStudyHours := 0;
       badges := []; tasksCompletedOnTime := 0; tasksCompletedToday := 0;
       lastTaskDate := None |} /\
  (forall stats, exists w1, savePlayerStats stats w = (Ret tt, w1)).
Proof.
  destruct (loadPlayerStats_run w) as (s & w1 & Hrun & _ & _ & _ & Hthrow & Hnone).
  repeat split.
  - eauto.
  - intros Hf. exists w1. rewrite <- (Hthrow Hf). exact Hrun.
  - intros Hn. exists w1. rewrite <- (Hnone Hn). exact Hrun.
  - intros stats. destruct (savePlayerStats_run stats w) as (w2 & Hsave & _). eauto.
Qed.
End StorageFacts.

Lemma storage_errors_fall_back_to_defaults_witness :
  hd false (fresh_world [true] noon).(faults) = true /\
  exists w1,
    @loadPlayerStats strict_runtime (fresh_world [true] noon) = (Ret getDefaultStats, w1).
Proof.
  split; [reflexivity|].
  destruct (@storage_errors_fall_back_to_defaults strict_runtime (fresh_world [true] noon))
    as (_ & Hthrow & _).
  apply Hthrow. reflexivity.
Defined.

(** ** Badges *)

Lemma includes_spec (xs : list string) (x : string) :
  includes xs x = true <-> x ∈ xs.
Proof.
  unfold includes. rewrite existsb_exists. split.
  - intros (y & Hin & Heq). apply String.eqb_eq in Heq. subst y.
    apply list_elem_of_In. exact Hin.
  - intros Hin. exists x. split; [apply list_elem_of_In; exact Hin|].
    apply String.eqb_refl.
Qed.

Lemma forEach_badges (stats : PlayerStats) (bs acc : list Badge) (w : World) :
  Eff.forEach bs (checkForNewBadges_each stats) acc w =
    (Ret (acc ++ List.filter
            (fun badge => negb (includes stats.(badges) badge.(badge_id)) &&
                          unlock_condition badge.(badge_id) w.(clock).(hours) stats)
            bs)%list, w).
Proof.
  revert acc. induction bs as [|b bs IH]; intros acc; simpl.
  - rewrite app_nil_r. reflexivity.
  - unfold Eff.bind at 1. unfold checkForNewBadges_each at 1.
    destruct (includes (badges stats) (badge_id b)); simpl.
    + apply IH.
    + unfold Eff.bind, Date_now, Eff.gets.
      destruct (unlock_condition (badge_id b) (hours (clock w)) stats); simpl.
      * rewrite IH, <- app_assoc. reflexivity.
      * apply IH.
Qed.

Lemma checkForNewBadges_run (stats : PlayerStats) (w : World) :
  exists w1, checkForNewBadges stats w = (Ret (unlockedAt w.(clock).(hours) stats), w1) /\
    w1.(store) = w.(store) /\ w1.(accesses) = w.(accesses) /\
    w1.(faults) = w.(faults) /\ w1.(clock) = w.(clock).
Proof.
  unfold checkForNewBadges, Eff.bind at 1. rewrite forEach_badges, app_nil_l.
  fold (unlockedAt (hours (clock w)) stats).
  generalize (unlockedAt (hours (clock w)) stats) as unlocked. intros unlocked.
  unfold Eff.bind, Eff.when, Eff.ret, Haptics_fire, Eff.effect.
  destruct (0 <? Z.of_nat (length unlocked));
    eexists; (split; [reflexivity|]); simpl; auto.
Qed.

(** C2, as stated, fails: the same stats give one badge at noon and two at
    seven in the morning. *)
Lemma checkForNewBadges_hour_counterexample :
  let stats := set_tasksCompletedToday 1 (set_tasksCompleted 1 getDefaultStats) in
  map badge_id (unlockedAt 12 stats) = ["first_task"] /\
  map badge_id (unlockedAt 7 stats) = ["first_task"; "early_bird"] /\
  fst (checkForNewBadges stats (fresh_world [] noon)) <>
  fst (checkForNewBadges stats (fresh_world [] early)).
Proof.
  repeat split. vm_compute. discriminate.
Qed.

(** C2 (amended): the badges returned by [checkForNewBadges] are determined
    by the stats and the local hour of the check: two checks of the same
    stats at the same hour return the same badges; apart from 'early_bird'
    and 'night_owl' the condition of a badge depends on the counters alone;
    and a badge listed in [stats.badges] is never returned. *)
Theorem checkForNewBadges_determined_by_stats_and_hour (stats : PlayerStats) :
  (forall w, fst (checkForNewBadges stats w) = Ret (unlockedAt w.(clock).(hours) stats)) /\
  (forall w1 w2, w1.(clock).(hours) = w2.(clock).(hours) ->
     fst (checkForNewBadges stats w1) = fst (checkForNewBadges stats w2)) /\
  (forall id hour1 hour2, id <> "early_bird" -> id <> "night_owl" ->
     unlock_condition id hour1 stats = unlock_condition id hour2 stats) /\
  (forall w badge, badge ∈ unlockedAt w.(clock).(hours) stats ->
     badge.(badge_id) ∉ stats.(badges)).
Proof.
  assert (Hrun : forall w,
    fst (checkForNewBadges stats w) = Ret (unlockedAt w.(clock).(hours) stats)).
  { intros w. destruct (checkForNewBadges_run stats w) as (w1 & -> & _). reflexivity. }
  repeat split.
  - exact Hrun.
  - intros w1 w2 Hh. rewrite !Hrun, Hh. reflexivity.
  - intros id h1 h2 He Hn. unfold unlock_condition.
    apply String.eqb_neq in He, Hn. rewrite He, Hn. reflexivity.
  - intros w badge Hin Hlisted.
    apply list_elem_of_In, filter_In in Hin as [_ Hp].
    apply andb_true_iff in Hp as [Hp _].
    apply includes_spec in Hlisted. rewrite Hlisted in Hp. discriminate.
Qed.

Lemma checkForNewBadges_determined_by_stats_and_hour_witness :
  let stats := set_tasksCompletedToday 1 (set_tasksCompleted 1 getDefaultStats) in
  fst (checkForNewBadges stats (fresh_world [] noon)) =
  fst (checkForNewBadges stats (fresh_world [true] noon)).
Proof.
  intros stats.
  destruct (checkForNewBadges_determined_by_stats_and_hour stats) as (_ & Hsame & _).
  apply Hsame. reflexivity.
Defined.

(** ** Awarding XP *)

Section AwardFacts.
Context `{Runtime}.

Lemma awardXP_run (xpAmount : Z) (reason : string) (w : World) :
  exists s0 w0 w1,
    loadPlayerStats w = (Ret s0, w0) /\
    let total := s0.(totalXP) + xpAmount in
    let s1 := set_currentLevel (calculateLevel total) (set_totalXP total s0) in
    awardXP xpAmount reason w =
      (Ret {| levelUp := calculateLevel total >? s0.(currentLevel);
              newLevel := if calculateLevel total >? s0.(currentLevel)
                          then Some (calculateLevel total) else None;
              stats := s1 |}, w1) /\
    w1.(accesses) = (w0.(accesses) ++ [SetItem STATS_KEY (JSON_stringify s1)])%list /\
    (w1.(store) = w0.(store) \/
     w1.(store) = <[STATS_KEY := JSON_stringify s1]> w0.(store)).
Proof.
  destruct (loadPlayerStats_run w) as (s0 & w0 & Hload & _).
  exists s0, w0.
  destruct (savePlayerStats_run
              (set_currentLevel (calculateLevel (totalXP s0 + xpAmount))
                 (set_totalXP (totalXP s0 + xpAmount) s0)) w0)
    as (w1 & Hsave & Hacc & _ & Hstore).
  unfold awardXP, Eff.bind. rewrite Hload. cbv zeta. simpl totalXP at 1.
  cbn [totalXP currentLevel set_totalXP set_currentLevel] in *.
  rewrite Hsave.
  destruct (calculateLevel (totalXP s0 + xpAmount) >? currentLevel s0);
    eexists; (split; [reflexivity|]); (split; [reflexivity|]); simpl;
    (split; [exact Hacc|]); tauto.
Qed.

End AwardFacts.

(** ** The single storage key *)

Section FrameFacts.
Context `{Runtime}.

Lemma touches_only_quiet (key : string) {A : Type} (m : Eff.M A) :
  (forall w, (snd (m w)).(accesses) = w.(accesses) /\ (snd (m w)).(store) = w.(store)) ->
  touches_only key m.
Proof.
  intros Hq w. destruct (Hq w) as [Ha Hs]. exists [].
  rewrite Ha, Hs, app_nil_r. auto.
Qed.

Lemma touches_only_ret (key : string) {A : Type} (a : A) :
  touches_only key (Eff.ret a).
Proof. apply touches_only_quiet. intros w. split; reflexivity. Qed.

Lemma touches_only_lift (key : string) {A : Type} (o : outcome A) :
  touches_only key (Eff.lift o).
Proof. apply touches_only_quiet. intros w. split; reflexivity. Qed.

Lemma touches_only_console_error (key msg : string) :
  touches_only key (console_error msg).
Proof. apply touches_only_quiet. intros w. split; reflexivity. Qed.

Lemma touches_only_Haptics_fire (key : string) (h : Haptic) :
  touches_only key (Haptics_fire h).
Proof. apply touches_only_quiet. intros w. split; reflexivity. Qed.

Lemma touches_only_Date_now (key : string) : touches_only key Date_now.
Proof. apply touches_only_quiet. intros w. split; reflexivity. Qed.

Lemma touches_only_seq (key : string) (w w1 w2 : World) (calls : list Access) :
  w1.(accesses) = (w.(accesses) ++ calls)%list ->
  Forall (fun a => access_key a = key) calls ->
  (forall k, k <> key -> w1.(store) !! k = w.(store) !! k) ->
  (exists calls', w2.(accesses) = (w1.(accesses) ++ calls')%list /\
     Forall (fun a => access_key a = key) calls' /\
     forall k, k <> key -> w2.(store) !! k = w1.(store) !! k) ->
  exists calls', w2.(accesses) = (w.(accesses) ++ calls')%list /\
     Forall (fun a => access_key a = key) calls' /\
     forall k, k <> key -> w2.(store) !! k = w.(store) !! k.
Proof.
  intros Ha Hf Hs (calls' & Ha' & Hf' & Hs').
  exists (calls ++ calls')%list. split; [|split].
  - rewrite Ha', Ha, app_assoc. reflexivity.
  - apply Forall_app. auto.
  - intros k Hk. rewrite Hs', Hs; auto.
Qed.

Lemma touches_only_bind (key : string) {A B : Type} (m : Eff.M A) (k : A -> Eff.M B) :
  touches_only key m -> (forall a, touches_only key (k a)) ->
  touches_only key (Eff.bind m k).
Proof.
  intros Hm Hk w. unfold Eff.bind.
  destruct (Hm w) as (calls & Ha & Hf & Hs).
  destruct (m w) as [[a|e] w1]; simpl in *.
  - eapply touches_only_seq; eauto. apply Hk.
  - eauto.
Qed.

Lemma touches_only_try_catch (key : string) {A : Type}
    (body : Eff.M A) (handler : string -> Eff.M A) :
  touches_only key body -> (forall e, touches_only key (handler e)) ->
  touches_only key (Eff.try_catch body handler).
Proof.
  intros Hm Hk w. unfold Eff.try_catch.
  destruct (Hm w) as (calls & Ha & Hf & Hs).
  destruct (body w) as [[a|e] w1]; simpl in *.
  - eauto.
  - eapply touches_only_seq; eauto. apply Hk.
Qed.

Lemma touches_only_forEach (key : string) {A B : Type}
    (xs : list A) (body : B -> A -> Eff.M B) (acc : B) :
  (forall b a, touches_only key (body b a)) ->
  touches_only key (Eff.forEach xs body acc).
Proof.
  intros Hbody. revert acc. induction xs as [|x xs IH]; intros acc; simpl.
  - apply touches_only_ret.
  - apply touches_only_bind; auto.
Qed.

Lemma touches_only_getItem (key : string) :
  touches_only key (AsyncStorage_getItem key).
Proof.
  intros w. destruct (getItem_run key w) as (r & w1 & -> & Hs & Ha & _).
  exists [GetItem key]. simpl. rewrite Ha, Hs. repeat split; auto.
Qed.

Lemma touches_only_setItem (key value : string) :
  touches_only key (AsyncStorage_setItem key value).
Proof.
  intros w. destruct (setItem_run key value w) as (r & w1 & -> & Ha & _ & Hr).
  exists [SetItem key value]. simpl. rewrite Ha. repeat split; auto.
  intros k Hk. destruct Hr as [(_ & _ & ->)|(_ & _ & ->)]; [reflexivity|].
  apply lookup_insert_ne. congruence.
Qed.

Lemma touches_only_loadPlayerStats : touches_only STATS_KEY loadPlayerStats.
Proof.
  unfold loadPlayerStats.
  apply touches_only_try_catch.
  - apply touches_only_bind; [apply touches_only_getItem|].
    intros [blob|]; [destruct (truthy blob)|];
      auto using touches_only_lift, touches_only_ret.
  - intros e. apply touches_only_bind;
      auto using touches_only_console_error, touches_only_ret.
Qed.

Lemma touches_only_savePlayerStats (s : PlayerStats) :
  touches_only STATS_KEY (savePlayerStats s).
Proof.
  unfold savePlayerStats. apply touches_only_try_catch.
  - apply touches_only_setItem.
  - intros e. apply touches_only_console_error.
Qed.

Lemma touches_only_checkForNewBadges (s : PlayerStats) :
  touches_only STATS_KEY (checkForNewBadges s).
Proof.
  apply touches_only_quiet. intros w.
  destruct (checkForNewBadges_run s w) as (w1 & -> & Hs & Ha & _). auto.
Qed.

Lemma touches_only_awardXP (xpAmount : Z) (reason : string) :
  touches_only STATS_KEY (awardXP xpAmount reason).
Proof.
  unfold awardXP.
  apply touches_only_bind; [apply touches_only_loadPlayerStats|]. intros s. cbv zeta.
  apply touches_only_bind; [apply touches_only_savePlayerStats|]. intros _.
  apply touches_only_bind; [|intros; apply touches_only_ret].
  destruct (_ >? _); apply touches_only_Haptics_fire.
Qed.

(** C9: the player statistics live in one store entry: [loadPlayerStats]
    makes exactly one storage call, a read of '@studyflow_player_stats',
    [savePlayerStats] exactly one, a write of that key, and every storage
    call of the operations built on them ([awardXP], [completeTask],
    [completePomodoroSession], the badge check) is on that key; the entries
    of all other keys are left as they were. *)
Theorem gamification_touches_single_key :
  STATS_KEY = "@studyflow_player_stats" /\
  (forall w, (snd (loadPlayerStats w)).(accesses) =
               (w.(accesses) ++ [GetItem STATS_KEY])%list) /\
  (forall s w, (snd (savePlayerStats s w)).(accesses) =
               (w.(accesses) ++ [SetItem STATS_KEY (JSON_stringify s)])%list) /\
  touches_only STATS_KEY loadPlayerStats /\
  (forall s, touches_only STATS_KEY (savePlayerStats s)) /\
  (forall s, touches_only STATS_KEY (checkForNewBadges s)) /\
  (forall xpAmount reason, touches_only STATS_KEY (awardXP xpAmount reason)) /\
  (forall task, touches_only STATS_KEY (completeTask task)) /\
  touches_only STATS_KEY completePomodoroSession.
Proof.
  split; [reflexivity|].
  split. { intros w. destruct (loadPlayerStats_run w) as (s & w1 & -> & _ & Ha & _). exact Ha. }
  split. { intros s w. destruct (savePlayerStats_run s w) as (w1 & -> & Ha & _). exact Ha. }
  split; [apply touches_only_loadPlayerStats|].
  split; [apply touches_only_savePlayerStats|].
  split; [apply touches_only_checkForNewBadges|].
  split; [apply touches_only_awardXP|].
  split.
  - intros task. unfold completeTask.
    apply touches_only_bind; [apply touches_only_loadPlayerStats|]. intros s. cbv zeta.
    apply touches_only_bind; [apply touches_only_Date_now|]. intros now.
    apply touches_only_bind; [apply touches_only_checkForNewBadges|]. intros unlocked.
    apply touches_only_bind; [apply touches_only_savePlayerStats|]. intros _.
    apply touches_only_bind; [apply touches_only_awardXP|]. intros r.
    apply touches_only_ret.
  - unfold completePomodoroSession.
    apply touches_only_bind; [apply touches_only_loadPlayerStats|]. intros s. cbv zeta.
    apply touches_only_bind; [apply touches_only_checkForNewBadges|]. intros unlocked.
    apply touches_only_bind; [apply touches_only_savePlayerStats|]. intros _.
    apply touches_only_bind; [apply touches_only_awardXP|]. intros r.
    apply touches_only_ret.
Qed.
End FrameFacts.

(** ** The task edit modal *)

Import TaskEditModal.

Section ModalFacts.
Context `{Platform}.

Lemma Priority_value_listed (p : Priority) : Priority_value p ∈ priorities.
Proof. destruct p; unfold priorities; simpl; set_solver. Qed.

Lemma step_priority_invariant (s : State) (ev : Event) :
  priority_invariant s -> priority_invariant (step s ev).
Proof.
  unfold priority_invariant. intros Hinv.
  destruct ev as [[t|]| | | |p| |]; simpl; try exact Hinv.
  - unfold or_string. destruct (priority t) as [v|] eqn:Hp.
    + destruct (truthy v) eqn:Hv; [right; auto|].
      left. apply (Priority_value_listed medium).
    + left. apply (Priority_value_listed medium).
  - exact I.
  - destruct (task s); [|exact I]. left. apply Priority_value_listed.
Qed.

Lemma run_priority_invariant (events : list Event) (s : State) :
  priority_invariant s -> priority_invariant (run events s).
Proof.
  revert s. induction events as [|ev events IH]; intros s Hinv; simpl.
  - exact Hinv.
  - apply IH, step_priority_invariant, Hinv.
Qed.

Lemma handleSave_passes_hook (s : State) (o : Saved) :
  handleSave s = Some o ->
  s.(task) = Some o.(spread) /\ o.(saved_priority) = s.(st_priority).
Proof.
  unfold handleSave. destruct (task s) as [t|]; [|discriminate].
  destruct (negb (truthy (trim (st_title s)))); [discriminate|].
  destruct (st_dueDate s) as [[d|]|]; try discriminate;
    intros [= <-]; split; reflexivity.
Qed.

Lemma step_keeps_listed (s : State) (ev : Event) :
  (forall t, ev <> PassTask (Some t)) ->
  s.(st_priority) ∈ priorities -> (step s ev).(st_priority) ∈ priorities.
Proof.
  intros Hev Hin. destruct ev as [[t|]| | | |p| |]; simpl; try exact Hin.
  - destruct (Hev t eq_refl).
  - apply Priority_value_listed.
Qed.

Lemma run_keeps_listed (events : list Event) (s : State) :
  (forall t, PassTask (Some t) ∉ events) ->
  s.(st_priority) ∈ priorities -> (run events s).(st_priority) ∈ priorities.
Proof.
  revert s. induction events as [|ev events IH]; intros s Hno Hin; simpl; [exact Hin|].
  apply IH.
  - intros t Ht. apply (Hno t). apply list_elem_of_further, Ht.
  - apply step_keeps_listed; [|exact Hin].
    intros t ->. apply (Hno t). apply list_elem_of_here.
Qed.

(** C4 (amended): whatever the modal went through since it was mounted, the
    priority of the object passed to [onSave] is one of 'low', 'medium',
    'high', 'urgent', or it is the non-empty priority string of the incoming
    task, passed on unchanged; it is one of the four whenever the incoming
    priority is absent, null, empty or itself one of the four, and whenever
    a priority button was pressed after the task was last passed to the
    modal. *)
Theorem handleSave_priority (events : list Event) (o : Saved) :
  handleSave (run events initial) = Some o ->
  (o.(saved_priority) ∈ priorities \/
   o.(spread).(priority) = Some o.(saved_priority)) /\
  (match o.(spread).(priority) with
   | Some p => truthy p = false \/ p ∈ priorities
   | None => True
   end -> o.(saved_priority) ∈ priorities) /\
  (forall before p after,
     events = (before ++ PressPriority p :: after)%list ->
     (forall t, PassTask (Some t) ∉ after) ->
     o.(saved_priority) ∈ priorities).
Proof.
  intros Hsave.
  apply handleSave_passes_hook in Hsave as [Htask Hprio].
  pose proof (run_priority_invariant events initial I) as Hinv.
  unfold priority_invariant in Hinv. rewrite Htask, <- Hprio in Hinv.
  split; [|split].
  - destruct Hinv as [Hin|[Heq _]]; auto.
  - intros Hincoming. destruct Hinv as [Hin|[Heq Htruthy]]; [exact Hin|].
    rewrite Heq in Hincoming. destruct Hincoming as [Hfalsy|Hin]; [congruence|exact Hin].
  - intros before p after -> Hno. rewrite Hprio.
    unfold run. rewrite fold_left_app. cbn [fold_left].
    apply run_keeps_listed; [exact Hno|].
    cbn [step st_priority]. apply Priority_value_listed.
Qed.
End ModalFacts.

(** C4, as stated, fails: a task that comes with a priority outside the four
    is saved with that priority when the user does not press a priority
    button. *)
Lemma handleSave_priority_counterexample :
  option_map saved_priority
    (@handleSave plain_platform
       (@run plain_platform [PassTask (Some (essay (Some "critical")))] initial))
    = Some "critical" /\
  "critical" ∉ priorities.
Proof.
  split; [reflexivity|].
  unfold priorities. simpl. intros Hin.
  repeat (apply elem_of_cons in Hin as [Hin|Hin]; [discriminate|]).
  inversion Hin.
Qed.

Lemma handleSave_priority_witness :
  (exists o,
     @handleSave plain_platform
       (@run plain_platform [PassTask (Some (essay None)); ChangeTitle " Essay 2 "] initial)
       = Some o /\
     o.(saved_title) = "Essay 2" /\
     o.(saved_priority) = "medium" /\
     o.(saved_priority) ∈ priorities) /\
  (exists o,
     @handleSave plain_platform
       (@run plain_platform
          [PassTask (Some (essay (Some "critical"))); PressPriority urgent;
           ChangeTitle "Essay 3"] initial)
       = Some o /\
     o.(saved_priority) ∈ priorities).
Proof.
  split.
  - eexists. split; [reflexivity|]. split; [reflexivity|]. split; [reflexivity|].
    refine (proj1 (proj2 (@handleSave_priority plain_platform
              [PassTask (Some (essay None)); ChangeTitle " Essay 2 "] _ eq_refl)) _).
    exact I.
  - eexists. split; [reflexivity|].
    refine (proj2 (proj2 (@handleSave_priority plain_platform
              [PassTask (Some (essay (Some "critical"))); PressPriority urgent;
               ChangeTitle "Essay 3"] _ eq_refl))
              [PassTask (Some (essay (Some "critical")))] urgent
              [ChangeTitle "Essay 3"] eq_refl _).
    intros t Hin. apply elem_of_cons in Hin as [Hin|Hin]; [discriminate|inversion Hin].
Defined.

(** ** The REST client *)

Import Api.

Lemma getAuthHeaders_run (w : World) :
  getAuthHeaders w =
    (match w.(session) with
     | Ret (Some sess) =>
         if truthy sess.(access_token)
         then Ret (bearer_headers sess.(access_token)) else Ret ∅
     | Ret None => Ret ∅
     | Throw e => Throw e
     end, w).
Proof.
  unfold getAuthHeaders, Eff.bind, supabase_auth_getSession.
  destruct (session w) as [[sess|]|e]; try reflexivity.
  destruct (truthy (access_token sess)); reflexivity.
Qed.



(** *** Running a handler against every answer of its environment *)

(** A trace that only grew: name what was added. *)
Ltac trace_grew :=
  cbn [trace]; rewrite <- ?app_assoc; reflexivity.




(** Unfold the handlers and the effects down to the answers they wait for. *)
Ltac run_handler :=
  cbv beta iota zeta delta
    [Eff.try_catch_finally Eff.try_finally Eff.try_catch Eff.bind Eff.lift
     Eff.ret Eff.throw Eff.effect Eff.spawn snd fst
     getAuthHeaders supabase_auth_getSession DocumentPicker_getDocumentAsync
     fetch emit Alert_alert console_error setState throw_unless_ok negb
     handleIcsSync_try handleIcsSync_catch handleIcsSync_finally
     handlePdfUpload handlePdfUpload_try handlePdfUpload_catch
     handlePdfUpload_finally
     load load_try load_catch load_finally load_resumed resume
     saveCourse_try saveCourse_catch saveCourse_finally saveCourse_and_reload
     session replies picker trace access_token ok status json canceled assets
     js_get String.eqb Ascii.eqb Bool.eqb].

(** Case analysis on the next answer the handler is stuck on. *)
Ltac next_answer :=
  match goal with
  | |- context [if truthy ?t then _ else _] =>
      let Ht := fresh "Htoken" in destruct (truthy t) eqn:Ht
  | |- context [match js_field ?f ?n with _ => _ end] => destruct (js_field f n)
  | |- context [match ?x with _ => _ end] => is_var x; destruct x
  end.

Ltac all_answers := run_handler; repeat (next_answer; run_handler).

Lemma gamification_touches_single_key_witness :
  let w := {| store := {[ "@theme" := "dark" ]}; faults := []; accesses := [];
              console := []; haptics := []; clock := noon |} in
  (snd (@awardXP strict_runtime 5 "Pomodoro session" w)).(store) !! "@theme" =
    Some "dark".
Proof.
  intros w.
  destruct (@gamification_touches_single_key strict_runtime)
    as (_ & _ & _ & _ & _ & _ & Haward & _).
  destruct (Haward 5 "Pomodoro session" w) as (calls & _ & _ & Hframe).
  rewrite Hframe by discriminate. reflexivity.
Defined.

(** * Further properties *)

Import Gamification.
Import LevelProgressBar.

(** ** The gamification operations, step by step *)

Section RunFacts.
Context `{Runtime}.

Lemma loadPlayerStats_eq (w : World) :
  loadPlayerStats w =
    (Ret (match read_stats w with Ret s => s | Throw _ => getDefaultStats end),
     {| store := w.(store); faults := tl w.(faults);
        accesses := (w.(accesses) ++ [GetItem STATS_KEY])%list;
        console := match read_stats w with
                   | Ret _ => w.(console)
                   | Throw _ => (w.(console) ++ ["Error loading player stats:"])%list
                   end;
        haptics := w.(haptics); clock := w.(clock) |}).
Proof.
  unfold read_stats, loadPlayerStats, Eff.try_catch, Eff.bind, AsyncStorage_getItem,
    next_fault, record_access.
  destruct w as [st fs acc con hap clk]; simpl.
  destruct fs as [|[|] fs]; simpl; try reflexivity;
    (destruct (st !! STATS_KEY) as [blob|]; [|reflexivity]);
    (destruct (truthy blob); [|reflexivity]);
    unfold Eff.lift; destruct (JSON_parse blob); reflexivity.
Qed.

Lemma savePlayerStats_eq (s : PlayerStats) (w : World) :
  savePlayerStats s w =
    (Ret tt,
     {| store := if hd false w.(faults) then w.(store)
                 else <[STATS_KEY := JSON_stringify s]> w.(store);
        faults := tl w.(faults);
        accesses := (w.(accesses) ++ [SetItem STATS_KEY (JSON_stringify s)])%list;
        console := if hd false w.(faults)
                   then (w.(console) ++ ["Error saving player stats:"])%list
                   else w.(console);
        haptics := w.(haptics); clock := w.(clock) |}).
Proof.
  unfold savePlayerStats, Eff.try_catch, AsyncStorage_setItem, next_fault,
    record_access, write_store.
  destruct w as [st fs acc con hap clk]; simpl.
  destruct fs as [|[|] fs]; reflexivity.
Qed.

Lemma checkForNewBadges_eq (stats : PlayerStats) (w : World) :
  checkForNewBadges stats w =
    (Ret (unlockedAt w.(clock).(hours) stats),
     {| store := w.(store); faults := w.(faults); accesses := w.(accesses);
        console := w.(console);
        haptics := if 0 <? Z.of_nat (length (unlockedAt w.(clock).(hours) stats))
                   then (w.(haptics) ++ [NotificationSuccess])%list
                   else w.(haptics);
        clock := w.(clock) |}).
Proof.
  unfold checkForNewBadges, Eff.bind at 1. rewrite forEach_badges, app_nil_l.
  fold (unlockedAt (hours (clock w)) stats).
  generalize (unlockedAt (hours (clock w)) stats) as unlocked. intros unlocked.
  unfold Eff.bind, Eff.when, Eff.ret, Haptics_fire, Eff.effect.
  destruct (0 <? Z.of_nat (length unlocked)); destruct w; reflexivity.
Qed.

Lemma awardXP_eq (xpAmount : Z) (reason : string) (w : World) :
  awardXP xpAmount reason w =
    let (loaded, w0) := loadPlayerStats w in
    match loaded with
    | Ret s0 =>
        let s1 := awarded xpAmount s0 in
        let up := s1.(currentLevel) >? s0.(currentLevel) in
        let w1 := snd (savePlayerStats s1 w0) in
        (Ret {| levelUp := up;
                newLevel := if up then Some s1.(currentLevel) else None;
                stats := s1 |},
         {| store := w1.(store); faults := w1.(faults); accesses := w1.(accesses);
            console := w1.(console);
            haptics := (w1.(haptics) ++
                        [if up then NotificationSuccess else ImpactMedium])%list;
            clock := w1.(clock) |})
    | Throw e => (Throw e, w0)
    end.
Proof.
  unfold awardXP, Eff.bind, awarded. rewrite loadPlayerStats_eq. cbv zeta.
  cbn [totalXP currentLevel set_totalXP set_currentLevel].
  rewrite !savePlayerStats_eq.
  cbn [snd store faults accesses console haptics clock].
  destruct (calculateLevel _ >? _); reflexivity.
Qed.

Lemma completeTask_eq (task : Task) (w : World) :
  completeTask task w =
    let (loaded, w0) := loadPlayerStats w in
    match loaded with
    | Ret s0 =>
        let s1 := completeTask_counters task w0.(clock) s0 in
        let (checked, w1) := checkForNewBadges s1 w0 in
        match checked with
        | Ret unlocked =>
            let w2 := snd (savePlayerStats (merge_badges unlocked s1) w1) in
            let (result, w3) := awardXP (calculateTaskXP task) "Task completion" w2 in
            match result with
            | Ret r =>
                (Ret {| earnedXP := calculateTaskXP task; leveledUp := r.(levelUp);
                        newBadges := unlocked |}, w3)
            | Throw e => (Throw e, w3)
            end
        | Throw e => (Throw e, w1)
        end
    | Throw e => (Throw e, w0)
    end.
Proof.
  unfold completeTask, completeTask_counters, merge_badges, Eff.bind, Date_now,
    Eff.gets, Eff.ret.
  rewrite loadPlayerStats_eq. cbv zeta. cbn [clock].
  rewrite !checkForNewBadges_eq. rewrite !savePlayerStats_eq.
  cbn [snd]. destruct (awardXP _ _ _) as [[r|e] w3]; reflexivity.
Qed.
End RunFacts.

(** ** Loading and saving, case by case *)

Section StorageCases.
Context `{Runtime}.

(** X1: when the read succeeds on a non-empty blob, [loadPlayerStats] returns
    exactly what [JSON.parse] makes of it, with no check of its fields, and
    logs nothing; an empty blob gives the default stats without a log; a blob
    that does not parse gives the default stats and one console error. *)
Theorem loadPlayerStats_by_blob (w : World) (blob : string) :
  hd false w.(faults) = false ->
  w.(store) !! STATS_KEY = Some blob ->
  let (r, w') := loadPlayerStats w in
  (truthy blob = true -> forall s, JSON_parse blob = Ret s ->
     r = Ret s /\ w'.(console) = w.(console)) /\
  (truthy blob = false -> r = Ret getDefaultStats /\ w'.(console) = w.(console)) /\
  (truthy blob = true -> forall e, JSON_parse blob = Throw e ->
     r = Ret getDefaultStats /\
     w'.(console) = (w.(console) ++ ["Error loading player stats:"])%list).
Proof.
  intros Hf Hb. rewrite loadPlayerStats_eq. unfold read_stats. rewrite Hf, Hb.
  split; [|split].
  - intros Ht s Hp. rewrite Ht, Hp. split; reflexivity.
  - intros Ht. rewrite Ht. split; reflexivity.
  - intros Ht e Hp. rewrite Ht, Hp. split; reflexivity.
Qed.

(** X2: a save that is not rejected, followed by a load that is not
    rejected, gives back the stats saved, provided the JSON text of the
    stats parses back to them; a rejected save leaves the store as it was
    and logs one console error. *)
Theorem save_then_load (s : PlayerStats) (w : World) :
  (hd false w.(faults) = false ->
   hd false (tl w.(faults)) = false ->
   truthy (JSON_stringify s) = true ->
   JSON_parse (JSON_stringify s) = Ret s ->
   fst (loadPlayerStats (snd (savePlayerStats s w))) = Ret s) /\
  (hd false w.(faults) = true ->
   (snd (savePlayerStats s w)).(store) = w.(store) /\
   (snd (savePlayerStats s w)).(console) =
     (w.(console) ++ ["Error saving player stats:"])%list).
Proof.
  rewrite savePlayerStats_eq. cbn [snd]. split.
  - intros Hf1 Hf2 Ht Hp. rewrite loadPlayerStats_eq. cbn [fst].
    unfold read_stats. cbn [faults store]. rewrite Hf1, Hf2.
    rewrite lookup_insert_eq, Ht, Hp. reflexivity.
  - intros Hf. cbn [store console]. rewrite Hf. split; reflexivity.
Qed.
End StorageCases.

Lemma loadPlayerStats_by_blob_witness :
  let w := {| store := {[ STATS_KEY := "{}" ]}; faults := []; accesses := [];
              console := []; haptics := []; clock := noon |} in
  fst (@loadPlayerStats (echo_runtime (set_totalXP 120 getDefaultStats)) w) =
    Ret (set_totalXP 120 getDefaultStats).
Proof.
  intros w.
  pose proof (@loadPlayerStats_by_blob (echo_runtime (set_totalXP 120 getDefaultStats))
                w "{}" eq_refl eq_refl) as Hx.
  destruct (@loadPlayerStats (echo_runtime (set_totalXP 120 getDefaultStats)) w)
    as [r w'].
  destruct Hx as (Hparsed & _).
  destruct (Hparsed eq_refl _ eq_refl) as [-> _]. reflexivity.
Defined.

Lemma save_then_load_witness :
  fst (@loadPlayerStats (echo_runtime getDefaultStats)
         (snd (@savePlayerStats (echo_runtime getDefaultStats) getDefaultStats
                 (fresh_world [] noon)))) = Ret getDefaultStats.
Proof.
  apply (@save_then_load (echo_runtime getDefaultStats) getDefaultStats
           (fresh_world [] noon)); reflexivity.
Defined.

(** ** Awarding XP to consistent stats *)

Section AwardCases.
Context `{Runtime}.

(** X3: when the stats loaded are consistent (their level is the level of
    their XP), [awardXP] moves the level in the direction of the amount: a
    non-negative amount never lowers it, a non-positive amount never raises
    it and never reports a level-up; [newLevel] is set exactly on a level-up;
    and one haptic is fired, the success notification exactly on a
    level-up. *)
Theorem awardXP_on_consistent_stats (xpAmount : Z) (reason : string)
    (w w0 : World) (s0 : PlayerStats) :
  loadPlayerStats w = (Ret s0, w0) ->
  s0.(currentLevel) = calculateLevel s0.(totalXP) ->
  exists r w',
    awardXP xpAmount reason w = (Ret r, w') /\
    (0 <= xpAmount -> s0.(currentLevel) <= r.(stats).(currentLevel)) /\
    (xpAmount <= 0 ->
       r.(stats).(currentLevel) <= s0.(currentLevel) /\ r.(levelUp) = false) /\
    r.(newLevel) = (if r.(levelUp) then Some r.(stats).(currentLevel) else None) /\
    w'.(haptics) =
      (w.(haptics) ++ [if r.(levelUp) then NotificationSuccess else ImpactMedium])%list.
Proof.
  intros Hload Hcons. rewrite awardXP_eq, Hload. cbv zeta.
  eexists _, _. split; [reflexivity|].
  cbn [stats levelUp newLevel haptics]. unfold awarded.
  cbn [totalXP currentLevel set_totalXP set_currentLevel].
  rewrite savePlayerStats_eq. cbn [snd haptics].
  assert (Hhap : w0.(haptics) = w.(haptics)).
  { rewrite loadPlayerStats_eq in Hload. injection Hload as _ <-. reflexivity. }
  rewrite Hhap, Hcons.
  split; [|split; [|split; reflexivity]].
  - intros Hx. apply calculateLevel_mono. lia.
  - intros Hx.
    assert (Hle : calculateLevel (totalXP s0 + xpAmount) <= calculateLevel (totalXP s0))
      by (apply calculateLevel_mono; lia).
    split; [exact Hle|]. rewrite Z.gtb_ltb. apply Z.ltb_ge. exact Hle.
Qed.
End AwardCases.

Lemma awardXP_on_consistent_stats_witness :
  exists r w',
    @awardXP strict_runtime 120 "Task completion" (fresh_world [] noon) = (Ret r, w') /\
    r.(levelUp) = true /\ r.(newLevel) = Some 2 /\
    w'.(haptics) = [NotificationSuccess].
Proof.
  destruct (@awardXP_on_consistent_stats strict_runtime 120 "Task completion"
              (fresh_world [] noon) _ _ eq_refl eq_refl)
    as (r & w' & Hrun & _ & _ & Hnew & Hhap).
  exists r, w'. split; [exact Hrun|].
  assert (Hr : r.(levelUp) = true /\ r.(stats).(currentLevel) = 2).
  { vm_compute in Hrun. injection Hrun as <- _. split; reflexivity. }
  destruct Hr as [Hup Hlvl]. rewrite Hup in Hnew, Hhap. rewrite Hlvl in Hnew.
  auto.
Defined.

(** ** Completing a task: counters and streak *)

Section CounterFacts.
Context `{Runtime}.

Lemma counters_after_task (task : Task) (now : Clock) (s : PlayerStats) :
  let s1 := completeTask_counters task now s in
  s1.(tasksCompleted) = s.(tasksCompleted) + 1 /\
  s1.(lastTaskDate) = Some now.(todayString) /\
  (s.(lastTaskDate) = Some now.(todayString) ->
     s1.(currentStreak) = s.(currentStreak) /\
     s1.(longestStreak) = s.(longestStreak) /\
     s1.(tasksCompletedToday) = s.(tasksCompletedToday) + 1) /\
  (s.(lastTaskDate) <> Some now.(todayString) ->
     s1.(tasksCompletedToday) = 1 /\
     s1.(currentStreak) =
       (if bool_decide (s.(lastTaskDate) = Some now.(yesterdayString))
        then s.(currentStreak) + 1 else 1) /\
     s1.(longestStreak) = Z.max s.(longestStreak) s1.(currentStreak)) /\
  (s.(currentStreak) <= s.(longestStreak) ->
     s1.(currentStreak) <= s1.(longestStreak)) /\
  s1.(totalXP) = s.(totalXP) /\ s1.(currentLevel) = s.(currentLevel) /\
  s1.(badges) = s.(badges) /\ s1.(pomodoroSessions) = s.(pomodoroSessions) /\
  s1.(totalStudyHours) = s.(totalStudyHours).
Proof.
  unfold completeTask_counters. cbv zeta.
  set (s' := match due_date task with Some _ => _ | None => _ end).
  assert (Hs' : s'.(lastTaskDate) = s.(lastTaskDate) /\
                s'.(currentStreak) = s.(currentStreak) /\
                s'.(longestStreak) = s.(longestStreak) /\
                s'.(tasksCompletedToday) = s.(tasksCompletedToday) + 1 /\
                s'.(tasksCompleted) = s.(tasksCompleted) + 1 /\
                s'.(totalXP) = s.(totalXP) /\ s'.(currentLevel) = s.(currentLevel) /\
                s'.(badges) = s.(badges) /\
                s'.(pomodoroSessions) = s.(pomodoroSessions) /\
                s'.(totalStudyHours) = s.(totalStudyHours)).
  { subst s'. destruct (due_date task) as [due|]; [destruct (truthy due)|];
      [destruct (Date_parse due) as [d|]; [destruct (nowMs now <=? d)|]| |];
      simpl; repeat split; reflexivity. }
  clearbody s'.
  destruct Hs' as (Hd & Hc & Hl & Ht & Hn & Hx & Hv & Hb & Hp & Hh).
  rewrite Hd.
  destruct (bool_decide_reflect (lastTaskDate s = Some (todayString now))) as [Heq|Hne].
  - rewrite Hd, Hc, Hl, Ht, Hn, Hx, Hv, Hb, Hp, Hh.
    repeat split; auto; try contradiction.
  - destruct (bool_decide (lastTaskDate s = Some (yesterdayString now)));
      cbn [currentStreak longestStreak set_currentStreak];
      match goal with
      | |- context [?a >? ?b] => destruct (Z.gtb_spec a b)
      end; simpl; rewrite ?Hc, ?Hl, ?Hn, ?Hx, ?Hv, ?Hb, ?Hp, ?Hh;
      repeat split; auto; try congruence; try lia.
Qed.

(** X4: the update [completeTask] makes to the loaded stats counts the task
    once and stamps today's date.  On a day that already has a task the
    streak is untouched and the day's count grows by one; on a new day the
    day's count restarts at 1, the streak grows by one after a task
    yesterday and restarts at 1 otherwise, and the longest streak becomes
    the maximum of itself and the new streak.  So a longest streak that was
    at least the current one stays so.  XP, level, badges, Pomodoro sessions
    and study hours are not touched. *)
Theorem completeTask_counters_streak (task : Task) (now : Clock) (s : PlayerStats) :
  let s1 := completeTask_counters task now s in
  s1.(tasksCompleted) = s.(tasksCompleted) + 1 /\
  s1.(lastTaskDate) = Some now.(todayString) /\
  (s.(lastTaskDate) = Some now.(todayString) ->
     s1.(currentStreak) = s.(currentStreak) /\
     s1.(longestStreak) = s.(longestStreak) /\
     s1.(tasksCompletedToday) = s.(tasksCompletedToday) + 1) /\
  (s.(lastTaskDate) <> Some now.(todayString) ->
     s1.(tasksCompletedToday) = 1 /\
     s1.(currentStreak) =
       (if bool_decide (s.(lastTaskDate) = Some now.(yesterdayString))
        then s.(currentStreak) + 1 else 1) /\
     s1.(longestStreak) = Z.max s.(longestStreak) s1.(currentStreak)) /\
  (s.(currentStreak) <= s.(longestStreak) ->
     s1.(currentStreak) <= s1.(longestStreak)) /\
  s1.(totalXP) = s.(totalXP) /\ s1.(currentLevel) = s.(currentLevel) /\
  s1.(badges) = s.(badges) /\ s1.(pomodoroSessions) = s.(pomodoroSessions) /\
  s1.(totalStudyHours) = s.(totalStudyHours).
Proof. apply counters_after_task. Qed.

(** X5: the on-time counter grows by one exactly when the task has a
    non-empty due date that parses and is not in the past; a task without a
    due date, or with one that does not parse, never counts as on time. *)
Theorem completeTask_counters_on_time (task : Task) (now : Clock) (s : PlayerStats) :
  (completeTask_counters task now s).(tasksCompletedOnTime) =
    s.(tasksCompletedOnTime) +
    match task.(due_date) with
    | Some due =>
        match Date_parse due with
        | Some dueDate => if truthy due && (now.(nowMs) <=? dueDate) then 1 else 0
        | None => 0
        end
    | None => 0
    end.
Proof.
  unfold completeTask_counters. cbv zeta.
  set (s' := match due_date task with Some _ => _ | None => _ end).
  assert (Hs' : s'.(tasksCompletedOnTime) = s.(tasksCompletedOnTime) +
    match task.(due_date) with
    | Some due =>
        match Date_parse due with
        | Some dueDate => if truthy due && (now.(nowMs) <=? dueDate) then 1 else 0
        | None => 0
        end
    | None => 0
    end).
  { subst s'. destruct (due_date task) as [due|]; [destruct (truthy due)|];
      [destruct (Date_parse due) as [d|]; [destruct (nowMs now <=? d)|]| |];
      simpl; try lia. destruct (Date_parse due); lia. }
  rewrite <- Hs'. clearbody s'.
  destruct (bool_decide _); [reflexivity|].
  destruct (bool_decide _); cbn [currentStreak longestStreak set_currentStreak];
    match goal with
    | |- context [?a >? ?b] => destruct (a >? b)
    end; reflexivity.
Qed.

(** X6: a second task on the same day leaves the streak and the longest
    streak as the first task left them and raises the day's count by one. *)
Theorem completeTask_counters_same_day (task1 task2 : Task) (now1 now2 : Clock)
    (s : PlayerStats) :
  now2.(todayString) = now1.(todayString) ->
  let s1 := completeTask_counters task1 now1 s in
  let s2 := completeTask_counters task2 now2 s1 in
  s2.(currentStreak) = s1.(currentStreak) /\
  s2.(longestStreak) = s1.(longestStreak) /\
  s2.(tasksCompletedToday) = s1.(tasksCompletedToday) + 1 /\
  s2.(tasksCompleted) = s.(tasksCompleted) + 2.
Proof.
  intros Hday s1 s2.
  destruct (counters_after_task task1 now1 s) as (Hn1 & Hd1 & _).
  fold s1 in Hn1, Hd1.
  destruct (counters_after_task task2 now2 s1) as (Hn2 & _ & Hsame & _).
  fold s2 in Hn2, Hsame.
  rewrite Hday in Hsame. destruct (Hsame Hd1) as (Hc & Hl & Ht).
  repeat split; auto. lia.
Qed.
End CounterFacts.

Lemma completeTask_counters_streak_witness :
  let s := set_lastTaskDate (Some "Mon Nov 13 2023")
             (set_longestStreak 3 (set_currentStreak 3 getDefaultStats)) in
  let s1 := @completeTask_counters strict_runtime
              {| priority := "low"; estimated_duration := None; due_date := None |}
              noon s in
  s1.(tasksCompletedToday) = 1 /\ s1.(currentStreak) = 4 /\ s1.(longestStreak) = 4.
Proof.
  intros s s1.
  destruct (@completeTask_counters_streak strict_runtime
              {| priority := "low"; estimated_duration := None; due_date := None |}
              noon s) as (_ & _ & _ & Hnew & _).
  destruct (Hnew ltac:(discriminate)) as (Ht & Hc & Hl).
  fold s1 in Ht, Hc, Hl. rewrite Hl, Hc. repeat split; auto.
Defined.

Lemma completeTask_counters_same_day_witness :
  let t := {| priority := "low"; estimated_duration := None; due_date := None |} in
  let s1 := @completeTask_counters strict_runtime t early getDefaultStats in
  let s2 := @completeTask_counters strict_runtime t noon s1 in
  s2.(currentStreak) = 1 /\ s2.(tasksCompletedToday) = 2 /\ s2.(tasksCompleted) = 2.
Proof.
  intros t s1 s2.
  destruct (@completeTask_counters_same_day strict_runtime t t early noon
              getDefaultStats eq_refl) as (Hc & _ & Ht & Hn).
  fold s1 s2 in Hc, Ht, Hn. rewrite Hc, Ht, Hn. repeat split.
Defined.

(** ** Badges: merging, re-checking, partition *)

Lemma uniq_from (xs seen : list string) :
  NoDup seen ->
  let out := fold_left (fun seen x => if includes seen x then seen else (seen ++ [x])%list)
               xs seen in
  NoDup out /\ forall x, x ∈ out <-> x ∈ seen \/ x ∈ xs.
Proof.
  revert seen. induction xs as [|x xs IH]; intros seen Hnd; simpl.
  - split; [exact Hnd|]. intros y. rewrite elem_of_nil. tauto.
  - destruct (includes seen x) eqn:Hinc.
    + destruct (IH seen Hnd) as [Hnd' Hin]. split; [exact Hnd'|].
      intros y. rewrite Hin, elem_of_cons. apply includes_spec in Hinc.
      split; [tauto|]. intros [Hy|[->|Hy]]; auto.
    + assert (Hnot : x ∉ seen).
      { intros Hx. apply includes_spec in Hx. congruence. }
      assert (Hnd2 : NoDup (seen ++ [x])).
      { apply NoDup_app. split; [exact Hnd|]. split; [|apply NoDup_singleton].
        intros y Hy Hy'. apply list_elem_of_singleton in Hy'. subst y. contradiction. }
      destruct (IH _ Hnd2) as [Hnd' Hin]. split; [exact Hnd'|].
      intros y. rewrite Hin, elem_of_app, list_elem_of_singleton, elem_of_cons. tauto.
Qed.

Lemma filter_none {A : Type} (p : A -> bool) (l : list A) :
  (forall x, x ∈ l -> p x = false) -> List.filter p l = [].
Proof.
  induction l as [|x l IH]; intros Hall; [reflexivity|].
  simpl. rewrite (Hall x) by (apply elem_of_cons; auto).
  apply IH. intros y Hy. apply Hall, elem_of_cons. auto.
Qed.

Lemma uniq_spec (xs : list string) :
  NoDup (uniq xs) /\ forall x, x ∈ uniq xs <-> x ∈ xs.
Proof.
  destruct (uniq_from xs [] (NoDup_nil_2)) as [Hnd Hin]. split; [exact Hnd|].
  intros x. unfold uniq. rewrite Hin, elem_of_nil. tauto.
Qed.

Lemma merged_badges_facts (hour : Z) (s : PlayerStats) :
  let s' := merge_badges (unlockedAt hour s) s in
  NoDup s'.(badges) /\
  (forall id, id ∈ s'.(badges) <->
     id ∈ s.(badges) \/ id ∈ map badge_id (unlockedAt hour s)) /\
  unlockedAt hour s' = [].
Proof.
  intros s'. subst s'. unfold merge_badges. cbn [badges set_badges].
  destruct (uniq_spec (s.(badges) ++ map badge_id (unlockedAt hour s))) as [Hnd Hin].
  split; [exact Hnd|]. split.
  - intros id. rewrite Hin, elem_of_app. reflexivity.
  - unfold unlockedAt at 1. apply filter_none.
    intros b Hb. cbn [badges set_badges].
    destruct (includes _ (badge_id b)) eqn:Hinc; [reflexivity|].
    cbn [negb andb].
    change (unlock_condition (badge_id b) hour s = false).
    destruct (unlock_condition (badge_id b) hour s) eqn:Hu; [|reflexivity].
    exfalso.
    assert (Hnin : badge_id b ∉ uniq (badges s ++ map badge_id (unlockedAt hour s))).
    { intros Hx. apply includes_spec in Hx. congruence. }
    apply Hnin. apply Hin, elem_of_app.
    destruct (includes (badges s) (badge_id b)) eqn:Hold.
    + left. apply includes_spec. exact Hold.
    + right. apply list_elem_of_fmap. exists b. split; [reflexivity|].
      apply list_elem_of_In, filter_In. split; [apply list_elem_of_In; exact Hb|].
      rewrite Hold, Hu. reflexivity.
Qed.

(** X7: after [completeTask] or [completePomodoroSession] has merged the
    badges just unlocked into the stats, the badge list has no duplicate,
    holds every badge listed before and every badge just unlocked and
    nothing else, and a second check at the same hour unlocks nothing. *)
Theorem merge_badges_settles (hour : Z) (s : PlayerStats) :
  let s' := merge_badges (unlockedAt hour s) s in
  NoDup s'.(badges) /\
  (forall id, id ∈ s'.(badges) <->
     id ∈ s.(badges) \/ id ∈ map badge_id (unlockedAt hour s)) /\
  unlockedAt hour s' = [].
Proof. apply merged_badges_facts. Qed.

(** X8: the two badge lists shown on the profile split [BADGES]: every badge
    is in exactly one of them, by whether the stats list its id, with the
    [unlocked] flag set accordingly; together they are as many as [BADGES],
    and ids in the stats that name no badge are ignored. *)
Theorem unlocked_and_locked_partition (s : PlayerStats) :
  (forall b, b ∈ getUnlockedBadges s <->
     exists b0, b0 ∈ BADGES /\ badge_id b0 ∈ badges s /\ b = with_unlocked true b0) /\
  (forall b, b ∈ getLockedBadges s <->
     exists b0, b0 ∈ BADGES /\ (badge_id b0 ∉ badges s) /\ b = with_unlocked false b0) /\
  (length (getUnlockedBadges s) + length (getLockedBadges s) = length BADGES)%nat /\
  (forall b, b ∈ getUnlockedBadges s -> b.(badge_unlocked) = true) /\
  (forall b, b ∈ getLockedBadges s -> b.(badge_unlocked) = false).
Proof.
  assert (Hu : forall b, b ∈ getUnlockedBadges s <->
     exists b0, b0 ∈ BADGES /\ badge_id b0 ∈ badges s /\ b = with_unlocked true b0).
  { intros b. unfold getUnlockedBadges. rewrite list_elem_of_fmap. split.
    - intros (b0 & -> & Hin). apply list_elem_of_In, filter_In in Hin as [Hin Hp].
      exists b0. rewrite <- includes_spec, list_elem_of_In. auto.
    - intros (b0 & Hin & Hid & ->). exists b0. split; [reflexivity|].
      apply list_elem_of_In, filter_In. rewrite <- list_elem_of_In.
      split; [exact Hin|]. apply includes_spec. exact Hid. }
  assert (Hl : forall b, b ∈ getLockedBadges s <->
     exists b0, b0 ∈ BADGES /\ (badge_id b0 ∉ badges s) /\ b = with_unlocked false b0).
  { intros b. unfold getLockedBadges. rewrite list_elem_of_fmap. split.
    - intros (b0 & -> & Hin). apply list_elem_of_In, filter_In in Hin as [Hin Hp].
      exists b0. split; [apply list_elem_of_In; exact Hin|]. split; [|reflexivity].
      intros Hx. apply includes_spec in Hx. rewrite Hx in Hp. discriminate.
    - intros (b0 & Hin & Hid & ->). exists b0. split; [reflexivity|].
      apply list_elem_of_In, filter_In. rewrite <- list_elem_of_In.
      split; [exact Hin|]. destruct (includes (badges s) (badge_id b0)) eqn:Hx;
        [|reflexivity]. apply includes_spec in Hx. contradiction. }
  split; [exact Hu|]. split; [exact Hl|]. split; [|split].
  - unfold getUnlockedBadges, getLockedBadges. rewrite !length_map.
    generalize BADGES. intros l. induction l as [|b l IH]; [reflexivity|].
    simpl. destruct (includes (badges s) (badge_id b)); simpl; lia.
  - intros b Hb. apply Hu in Hb as (b0 & _ & _ & ->). reflexivity.
  - intros b Hb. apply Hl in Hb as (b0 & _ & _ & ->). reflexivity.
Qed.

(** X9: the badge check fires its haptic exactly when it unlocks a badge,
    and touches nothing else of the world; with every badge already listed
    it unlocks nothing, whatever the counters and the hour. *)
Theorem checkForNewBadges_haptic (s : PlayerStats) (w : World) :
  let (r, w') := checkForNewBadges s w in
  r = Ret (unlockedAt w.(clock).(hours) s) /\
  w'.(haptics) = match unlockedAt w.(clock).(hours) s with
                  | [] => w.(haptics)
                  | _ :: _ => (w.(haptics) ++ [NotificationSuccess])%list
                  end /\
  w'.(store) = w.(store) /\ w'.(accesses) = w.(accesses) /\
  w'.(console) = w.(console) /\ w'.(faults) = w.(faults) /\
  ((forall b, b ∈ BADGES -> badge_id b ∈ badges s) ->
     unlockedAt w.(clock).(hours) s = []).
Proof.
  rewrite checkForNewBadges_eq. split; [reflexivity|].
  cbn [haptics store accesses console faults].
  split; [|repeat split].
  - generalize (unlockedAt (hours (clock w)) s). intros [|b l]; reflexivity.
  - intros Hall. unfold unlockedAt. apply filter_none.
    intros b Hb. apply Hall, includes_spec in Hb. rewrite Hb. reflexivity.
Qed.

Lemma checkForNewBadges_haptic_witness :
  let s := set_badges (map badge_id BADGES) getDefaultStats in
  unlockedAt 7 s = [].
Proof.
  intros s.
  pose proof (checkForNewBadges_haptic s (fresh_world [] early)) as Hx.
  destruct (checkForNewBadges s (fresh_world [] early)) as [r w'].
  destruct Hx as (_ & _ & _ & _ & _ & _ & Hall).
  apply Hall. intros b Hb. apply list_elem_of_fmap. exists b. auto.
Defined.

(** ** Completing a task, end to end *)

Section CompleteFacts.
Context `{Runtime}.

Lemma completePomodoroSession_eq (w : World) :
  completePomodoroSession w =
    let (loaded, w0) := loadPlayerStats w in
    match loaded with
    | Ret s0 =>
        let s1 := set_pomodoroSessions (s0.(pomodoroSessions) + 1) s0 in
        let (checked, w1) := checkForNewBadges s1 w0 in
        match checked with
        | Ret unlocked =>
            let w2 := snd (savePlayerStats (merge_badges unlocked s1) w1) in
            let (result, w3) := awardXP 5 "Pomodoro session" w2 in
            match result with
            | Ret _ => (Ret tt, w3)
            | Throw e => (Throw e, w3)
            end
        | Throw e => (Throw e, w1)
        end
    | Throw e => (Throw e, w0)
    end.
Proof.
  unfold completePomodoroSession, merge_badges, Eff.bind, Eff.ret.
  rewrite loadPlayerStats_eq. cbv zeta.
  rewrite !checkForNewBadges_eq. rewrite !savePlayerStats_eq.
  cbn [snd]. destruct (awardXP _ _ _) as [[r|e] w3]; reflexivity.
Qed.

(** What a load finds after stats were written, none of the calls being
    rejected. *)
Lemma read_after_write (s : PlayerStats) (w : World) :
  w.(store) !! STATS_KEY = Some (JSON_stringify s) ->
  hd false w.(faults) = false ->
  truthy (JSON_stringify s) = true ->
  JSON_parse (JSON_stringify s) = Ret s ->
  read_stats w = Ret s.
Proof.
  intros Hs Hf Ht Hp. unfold read_stats. rewrite Hf, Hs, Ht. exact Hp.
Qed.

Lemma read_stats_ext (w1 w2 : World) :
  w1.(store) = w2.(store) ->
  hd false w1.(faults) = hd false w2.(faults) ->
  read_stats w1 = read_stats w2.
Proof. intros Hs Hf. unfold read_stats. rewrite Hs, Hf. reflexivity. Qed.

(** X10: when the load at its start and the load inside its [awardXP]
    call both yield a [PlayerStats], [completeTask] returns, with the XP of
    [calculateTaskXP] and the badges unlocked by the updated counters.  When
    the stats loaded have a non-negative task count and do not list
    'first_task', these badges include 'first_task'. *)
Theorem completeTask_first_task (task : Task) (w w0 w_mid : World)
    (s0 s_mid : PlayerStats) :
  loadPlayerStats w = (Ret s0, w0) ->
  loadPlayerStats (before_award (completeTask_counters task w.(clock) s0) w0) =
    (Ret s_mid, w_mid) ->
  exists r w',
    completeTask task w = (Ret r, w') /\
    r.(earnedXP) = calculateTaskXP task /\
    r.(newBadges) =
      unlockedAt w.(clock).(hours) (completeTask_counters task w.(clock) s0) /\
    (0 <= s0.(tasksCompleted) -> "first_task" ∉ s0.(badges) ->
     "first_task" ∈ map badge_id r.(newBadges)).
Proof.
  intros Hload Hmid.
  assert (Hclk : w0.(clock) = w.(clock)).
  { rewrite loadPlayerStats_eq in Hload. injection Hload as _ <-. reflexivity. }
  rewrite completeTask_eq, Hload. cbv zeta.
  rewrite checkForNewBadges_eq, awardXP_eq.
  unfold before_award in Hmid. rewrite checkForNewBadges_eq in Hmid. cbn [snd] in Hmid.
  rewrite <- Hclk in Hmid. rewrite Hmid. cbv zeta.
  rewrite Hclk. eexists _, _. split; [reflexivity|].
  cbn [earnedXP newBadges]. split; [reflexivity|]. split; [reflexivity|].
  intros Hn Hnot.
  destruct (counters_after_task task (clock w) s0)
    as (Hcount & _ & _ & _ & _ & _ & _ & Hb & _).
  apply list_elem_of_fmap.
  exists {| badge_id := "first_task"; badge_name := "First Steps";
            badge_description := "Complete your first task";
            badge_icon := "footsteps"; badge_color := "#60A5FA";
            badge_requirement := "Complete 1 task"; badge_unlocked := false |}.
  split; [reflexivity|].
  apply list_elem_of_In, filter_In. split; [left; reflexivity|].
  cbn [badge_id]. rewrite Hb.
  destruct (includes (badges s0) "first_task") eqn:Hinc.
  - apply includes_spec in Hinc. contradiction.
  - unfold unlock_condition. cbn [String.eqb Ascii.eqb Bool.eqb]. simpl negb.
    rewrite Hcount. apply andb_true_iff. split; [reflexivity|].
    apply Z.geb_le. lia.
Qed.

(** X11: when no storage call is rejected and the JSON text of the stats
    saved in between parses back to them, [completeTask] ends with one
    entry in the store that holds the loaded stats with the task counted,
    the badges merged, the XP of the task added and the level recomputed. *)
Theorem completeTask_persists (task : Task) (w w0 : World) (s0 : PlayerStats) :
  loadPlayerStats w = (Ret s0, w0) ->
  w.(faults) = [] ->
  let s1 := completeTask_counters task w.(clock) s0 in
  let s2 := merge_badges (unlockedAt w.(clock).(hours) s1) s1 in
  truthy (JSON_stringify s2) = true ->
  JSON_parse (JSON_stringify s2) = Ret s2 ->
  let s3 := awarded (calculateTaskXP task) s2 in
  (snd (completeTask task w)).(store) =
    <[STATS_KEY := JSON_stringify s3]> w.(store) /\
  s3.(tasksCompleted) = s0.(tasksCompleted) + 1 /\
  s3.(totalXP) = s0.(totalXP) + calculateTaskXP task /\
  s3.(currentLevel) = calculateLevel s3.(totalXP).
Proof.
  intros Hload Hf s1 s2 Ht Hp s3.
  assert (Hw0 : w0.(clock) = w.(clock) /\ w0.(store) = w.(store) /\ w0.(faults) = []).
  { rewrite loadPlayerStats_eq in Hload. injection Hload as _ <-.
    cbn. rewrite Hf. auto. }
  destruct Hw0 as (Hclk & Hst & Hf0).
  split.
  - rewrite completeTask_eq, Hload. cbv zeta. rewrite checkForNewBadges_eq, Hclk.
    fold s1. fold s2. rewrite savePlayerStats_eq. cbn [snd faults store].
    rewrite Hf0. cbn [hd tl].
    rewrite awardXP_eq, loadPlayerStats_eq. cbv zeta.
    rewrite savePlayerStats_eq. cbn [snd faults store hd tl].
    erewrite read_after_write; [| | reflexivity | exact Ht | exact Hp].
    + fold s3. destruct (awarded _ _); cbn. rewrite Hst, insert_insert_eq. reflexivity.
    + cbn [store]. apply lookup_insert_eq.
  - destruct (counters_after_task task (clock w) s0)
      as (Hcount & _ & _ & _ & _ & Hxp & _).
    fold s1 in Hcount, Hxp. subst s3 s2. unfold awarded, merge_badges. cbv zeta.
    cbn [tasksCompleted totalXP currentLevel set_totalXP set_currentLevel set_badges].
    rewrite Hcount, Hxp. auto.
Qed.

(** X12: when the save in the middle of [completeTask] is the only rejected
    call, the XP is credited to the stats as they were loaded: the entry the
    store ends with has the XP of the task and the recomputed level, but not
    the task count, streak and badges of this task. *)
Theorem completeTask_save_rejected (task : Task) (w w0 : World) (s0 : PlayerStats) :
  loadPlayerStats w = (Ret s0, w0) ->
  w.(faults) = [false; true] ->
  (snd (completeTask task w)).(store) =
    <[STATS_KEY := JSON_stringify (awarded (calculateTaskXP task) s0)]> w.(store) /\
  (awarded (calculateTaskXP task) s0).(tasksCompleted) = s0.(tasksCompleted) /\
  (awarded (calculateTaskXP task) s0).(badges) = s0.(badges).
Proof.
  intros Hload Hf. split; [|split; reflexivity].
  rewrite loadPlayerStats_eq in Hload. injection Hload as Hs0 Hw0.
  assert (Hread : read_stats w = Ret s0 \/
                  (exists e, read_stats w = Throw e) /\ s0 = getDefaultStats).
  { destruct (read_stats w) as [s|e]; [left; congruence|right; eauto]. }
  rewrite completeTask_eq, loadPlayerStats_eq. cbv zeta.
  rewrite checkForNewBadges_eq, savePlayerStats_eq. cbn [snd faults store clock].
  rewrite Hf. cbn [hd tl].
  rewrite awardXP_eq, loadPlayerStats_eq. cbv zeta.
  rewrite savePlayerStats_eq. cbn [snd faults store hd tl].
  match goal with
  | |- context [read_stats ?x] =>
      lazymatch x with
      | w => fail
      | _ => rewrite (read_stats_ext x w) by (cbn [store faults hd]; rewrite ?Hf; reflexivity)
      end
  end.
  rewrite Hs0.
  destruct (awarded _ _); reflexivity.
Qed.

(** X13: no operation of the module changes [totalStudyHours]: the stats
    written by [awardXP], [completeTask] and [completePomodoroSession] carry
    the study hours that were loaded.  So these operations unlock
    'study_marathon' only if the stored stats already have 40 hours. *)
Theorem totalStudyHours_never_changes (task : Task) (now : Clock) (hour xpAmount : Z)
    (s : PlayerStats) :
  (awarded xpAmount s).(totalStudyHours) = s.(totalStudyHours) /\
  (merge_badges (unlockedAt hour (completeTask_counters task now s))
     (completeTask_counters task now s)).(totalStudyHours) = s.(totalStudyHours) /\
  (s.(totalStudyHours) < 40 ->
   ("study_marathon" ∉
      map badge_id (unlockedAt hour (completeTask_counters task now s))) /\
   "study_marathon" ∉ map badge_id
      (unlockedAt hour (set_pomodoroSessions (s.(pomodoroSessions) + 1) s))).
Proof.
  destruct (counters_after_task task now s)
    as (_ & _ & _ & _ & _ & _ & _ & _ & _ & Hh).
  split; [reflexivity|]. split; [exact Hh|].
  intros Hlt.
  assert (Hno : forall s', s'.(totalStudyHours) = s.(totalStudyHours) ->
            "study_marathon" ∉ map badge_id (unlockedAt hour s')).
  { intros s' Hs' Hin. apply list_elem_of_fmap in Hin as (b & Hid & Hb).
    apply list_elem_of_In, filter_In in Hb as [_ Hp].
    apply andb_true_iff in Hp as [_ Hu]. rewrite <- Hid in Hu.
    unfold unlock_condition in Hu. cbn [String.eqb Ascii.eqb Bool.eqb] in Hu.
    rewrite Hs' in Hu. apply Z.geb_le in Hu. lia. }
  split; apply Hno; [exact Hh|reflexivity].
Qed.

(** X14: when the load at its start and the load inside its [awardXP]
    call both yield a [PlayerStats], [completePomodoroSession] returns; the
    session that brings the count to 25 or more unlocks 'pomodoro_master'
    unless it is listed, and when no storage call is rejected and the JSON
    text of the stats saved in between parses back to them, the store ends
    with the session counted and 5 XP added. *)
Theorem completePomodoroSession_counts (w w0 w_mid : World) (s0 s_mid : PlayerStats) :
  loadPlayerStats w = (Ret s0, w0) ->
  loadPlayerStats
    (before_award (set_pomodoroSessions (s0.(pomodoroSessions) + 1) s0) w0) =
    (Ret s_mid, w_mid) ->
  let s1 := set_pomodoroSessions (s0.(pomodoroSessions) + 1) s0 in
  let s2 := merge_badges (unlockedAt w.(clock).(hours) s1) s1 in
  (exists w', completePomodoroSession w = (Ret tt, w')) /\
  (24 <= s0.(pomodoroSessions) -> "pomodoro_master" ∉ s0.(badges) ->
   "pomodoro_master" ∈ s2.(badges)) /\
  (w.(faults) = [] -> truthy (JSON_stringify s2) = true ->
   JSON_parse (JSON_stringify s2) = Ret s2 ->
   (snd (completePomodoroSession w)).(store) =
     <[STATS_KEY := JSON_stringify (awarded 5 s2)]> w.(store) /\
   (awarded 5 s2).(pomodoroSessions) = s0.(pomodoroSessions) + 1 /\
   (awarded 5 s2).(totalXP) = s0.(totalXP) + 5).
Proof.
  intros Hload Hmid s1 s2.
  assert (Hw0 : w0.(clock) = w.(clock) /\ w0.(store) = w.(store) /\
                w0.(faults) = tl w.(faults)).
  { rewrite loadPlayerStats_eq in Hload. injection Hload as _ <-. cbn. auto. }
  destruct Hw0 as (Hclk & Hst & Hf0).
  split; [|split].
  - rewrite completePomodoroSession_eq, Hload. cbv zeta.
    rewrite checkForNewBadges_eq, awardXP_eq.
    unfold before_award in Hmid. rewrite checkForNewBadges_eq in Hmid.
    cbn [snd] in Hmid. rewrite Hmid. cbv zeta.
    eexists. reflexivity.
  - intros Hn Hnot.
    destruct (merged_badges_facts (hours (clock w)) s1) as (_ & Hin & _).
    fold s2 in Hin. apply Hin. right. apply list_elem_of_fmap.
    exists {| badge_id := "pomodoro_master"; badge_name := "Pomodoro Master";
              badge_description := "Complete 25 Pomodoro sessions";
              badge_icon := "timer"; badge_color := "#EF4444";
              badge_requirement := "25 Pomodoro sessions"; badge_unlocked := false |}.
    split; [reflexivity|].
    apply list_elem_of_In, filter_In. split; [do 6 right; left; reflexivity|].
    cbn [badge_id]. subst s1. cbn [badges set_pomodoroSessions].
    destruct (includes (badges s0) "pomodoro_master") eqn:Hinc.
    + apply includes_spec in Hinc. contradiction.
    + unfold unlock_condition. cbn [String.eqb Ascii.eqb Bool.eqb]. simpl negb.
      cbn [pomodoroSessions set_pomodoroSessions]. apply andb_true_iff. split; [reflexivity|].
      apply Z.geb_le. lia.
  - intros Hf Ht Hp. split; [|split; reflexivity].
    rewrite Hf in Hf0. cbn in Hf0.
    rewrite completePomodoroSession_eq, Hload. cbv zeta.
    rewrite checkForNewBadges_eq, Hclk. fold s1. fold s2.
    rewrite savePlayerStats_eq. cbn [snd faults store].
    rewrite Hf0. cbn [hd tl].
    rewrite awardXP_eq, loadPlayerStats_eq. cbv zeta.
    rewrite savePlayerStats_eq. cbn [snd faults store hd tl].
    erewrite read_after_write; [| | reflexivity | exact Ht | exact Hp].
    + destruct (awarded _ _); cbn. rewrite Hst, insert_insert_eq. reflexivity.
    + cbn [store]. apply lookup_insert_eq.
Qed.
End CompleteFacts.

Lemma completeTask_first_task_witness :
  exists r w',
    @completeTask strict_runtime sample_task (fresh_world [] noon) = (Ret r, w') /\
    "first_task" ∈ map badge_id r.(newBadges).
Proof.
  destruct (@completeTask_first_task strict_runtime sample_task
              (fresh_world [] noon) _ _ _ _ eq_refl eq_refl)
    as (r & w' & Hrun & _ & _ & Hfirst).
  exists r, w'. split; [exact Hrun|].
  apply Hfirst; [simpl; lia|apply not_elem_of_nil].
Defined.

Lemma completeTask_persists_witness :
  (snd (@completeTask (echo_runtime sample_saved) sample_task
          (fresh_world [] noon))).(store) !! STATS_KEY = Some "{}" /\
  (awarded (calculateTaskXP sample_task) sample_saved).(tasksCompleted) = 1 /\
  (awarded (calculateTaskXP sample_task) sample_saved).(totalXP) = 55.
Proof.
  destruct (@completeTask_persists (echo_runtime sample_saved) sample_task
              (fresh_world [] noon) _ _ eq_refl eq_refl eq_refl eq_refl)
    as (Hstore & Hcount & Hxp & _).
  split; [|split].
  - rewrite Hstore. apply lookup_insert_eq.
  - exact Hcount.
  - exact Hxp.
Defined.

Lemma completeTask_save_rejected_witness :
  (snd (@completeTask (echo_runtime sample_saved) sample_task
          (fresh_world [false; true] noon))).(store) !! STATS_KEY = Some "{}" /\
  (awarded (calculateTaskXP sample_task) getDefaultStats).(tasksCompleted) = 0.
Proof.
  destruct (@completeTask_save_rejected (echo_runtime sample_saved) sample_task
              (fresh_world [false; true] noon) _ _ eq_refl eq_refl)
    as (Hstore & Hcount & _).
  split; [|exact Hcount].
  rewrite Hstore. apply lookup_insert_eq.
Defined.

Lemma totalStudyHours_never_changes_witness :
  "study_marathon" ∉
    map badge_id (unlockedAt 12
      (@completeTask_counters strict_runtime sample_task noon getDefaultStats)).
Proof.
  destruct (@totalStudyHours_never_changes strict_runtime sample_task noon 12 0
              getDefaultStats) as (_ & _ & Hno).
  apply Hno. simpl. lia.
Defined.

Lemma completePomodoroSession_counts_witness :
  let s0 := set_pomodoroSessions 24 getDefaultStats in
  let w := {| store := {[ STATS_KEY := "{}" ]}; faults := []; accesses := [];
              console := []; haptics := []; clock := noon |} in
  "pomodoro_master" ∈
    (merge_badges (unlockedAt 12 (set_pomodoroSessions 25 s0))
       (set_pomodoroSessions 25 s0)).(badges).
Proof.
  intros s0 w.
  destruct (@completePomodoroSession_counts (echo_runtime s0) w _ _ _ _ eq_refl eq_refl)
    as (_ & Hbadge & _).
  apply Hbadge; [simpl; lia|apply not_elem_of_nil].
Defined.

(** ** The level written by [awardXP] *)

Section LevelFacts.
Context `{Runtime}.

Lemma awardXP_after_load (xpAmount : Z) (reason : string) (w w0 : World)
    (s0 : PlayerStats) :
  loadPlayerStats w = (Ret s0, w0) ->
  exists r w1,
    awardXP xpAmount reason w = (Ret r, w1) /\
    r.(stats).(currentLevel) = calculateLevel r.(stats).(totalXP) /\
    w1.(accesses) =
      (w0.(accesses) ++ [SetItem STATS_KEY (JSON_stringify r.(stats))])%list /\
    w1.(store) =
      (if hd false w0.(faults) then w0.(store)
       else <[STATS_KEY := JSON_stringify r.(stats)]> w0.(store)) /\
    (r.(levelUp) = true <-> s0.(currentLevel) < r.(stats).(currentLevel)).
Proof.
  intros Hload. rewrite awardXP_eq, Hload. cbv zeta.
  eexists _, _. split; [reflexivity|].
  rewrite savePlayerStats_eq. cbn [snd stats levelUp accesses store].
  split; [reflexivity|]. split; [reflexivity|]. split; [reflexivity|].
  rewrite Z.gtb_ltb. apply Z.ltb_lt.
Qed.

(** C5 (amended): whenever [loadPlayerStats] yields a [PlayerStats] (the
    stats of the store when the read succeeds and the blob parses, the
    default stats otherwise), [awardXP] returns; the stats it hands to the
    store under the stats key, and returns, have
    [currentLevel = calculateLevel totalXP]; and its [levelUp] flag is true
    exactly when that recomputed level exceeds the level of the stats
    [loadPlayerStats] yielded.  [completeTask] and [completePomodoroSession]
    end with the call of [awardXP] made after their own save; [completeTask]
    returns the flag of that call, and the last storage call of either is
    the write of stats with [currentLevel = calculateLevel totalXP]. *)
Theorem awardXP_level_invariant (w w0 : World) (s0 : PlayerStats) :
  loadPlayerStats w = (Ret s0, w0) ->
  s0 = match read_stats w with Ret s => s | Throw _ => getDefaultStats end /\
  (forall xpAmount reason,
     exists r w1,
       awardXP xpAmount reason w = (Ret r, w1) /\
       r.(stats).(currentLevel) = calculateLevel r.(stats).(totalXP) /\
       w1.(accesses) =
         (w0.(accesses) ++ [SetItem STATS_KEY (JSON_stringify r.(stats))])%list /\
       w1.(store) =
         (if hd false w0.(faults) then w0.(store)
          else <[STATS_KEY := JSON_stringify r.(stats)]> w0.(store)) /\
       (r.(levelUp) = true <-> s0.(currentLevel) < r.(stats).(currentLevel))) /\
  (forall task s_mid w_mid,
     let s1 := completeTask_counters task w.(clock) s0 in
     loadPlayerStats (before_award s1 w0) = (Ret s_mid, w_mid) ->
     exists r w1,
       awardXP (calculateTaskXP task) "Task completion" (before_award s1 w0) =
         (Ret r, w1) /\
       completeTask task w =
         (Ret {| earnedXP := calculateTaskXP task; leveledUp := r.(levelUp);
                 newBadges := unlockedAt w.(clock).(hours) s1 |}, w1) /\
       r.(stats).(currentLevel) = calculateLevel r.(stats).(totalXP) /\
       (r.(levelUp) = true <-> s_mid.(currentLevel) < r.(stats).(currentLevel)) /\
       last w1.(accesses) = Some (SetItem STATS_KEY (JSON_stringify r.(stats)))) /\
  (forall s_mid w_mid,
     let s1 := set_pomodoroSessions (s0.(pomodoroSessions) + 1) s0 in
     loadPlayerStats (before_award s1 w0) = (Ret s_mid, w_mid) ->
     exists r w1,
       awardXP 5 "Pomodoro session" (before_award s1 w0) = (Ret r, w1) /\
       completePomodoroSession w = (Ret tt, w1) /\
       r.(stats).(currentLevel) = calculateLevel r.(stats).(totalXP) /\
       last w1.(accesses) = Some (SetItem STATS_KEY (JSON_stringify r.(stats)))).
Proof.
  intros Hload.
  assert (Hclk : w0.(clock) = w.(clock)).
  { rewrite loadPlayerStats_eq in Hload. injection Hload as _ <-. reflexivity. }
  split; [|split; [|split]].
  - rewrite loadPlayerStats_eq in Hload. injection Hload as <- _. reflexivity.
  - intros xpAmount reason. apply awardXP_after_load, Hload.
  - intros task s_mid w_mid s1 Hmid.
    destruct (awardXP_after_load (calculateTaskXP task) "Task completion" _ _ _ Hmid)
      as (r & w1 & Hrun & Hlevel & Hacc & _ & Hup).
    exists r, w1. split; [exact Hrun|].
    split; [|split; [exact Hlevel|split; [exact Hup|]]].
    + rewrite completeTask_eq, Hload. cbv zeta. rewrite checkForNewBadges_eq.
      unfold before_award in Hrun. rewrite checkForNewBadges_eq in Hrun.
      cbn [snd] in Hrun. subst s1. rewrite <- Hclk in Hrun |- *.
      rewrite Hrun. reflexivity.
    + rewrite Hacc. apply last_snoc.
  - intros s_mid w_mid s1 Hmid.
    destruct (awardXP_after_load 5 "Pomodoro session" _ _ _ Hmid)
      as (r & w1 & Hrun & Hlevel & Hacc & _ & _).
    exists r, w1. split; [exact Hrun|].
    split; [|split; [exact Hlevel|]].
    + rewrite completePomodoroSession_eq, Hload. cbv zeta.
      rewrite checkForNewBadges_eq.
      unfold before_award in Hrun. rewrite checkForNewBadges_eq in Hrun.
      cbn [snd] in Hrun. subst s1. rewrite Hrun. reflexivity.
    + rewrite Hacc. apply last_snoc.
Qed.
End LevelFacts.

(** C5, as stated, fails: the store holds stats at level 5, the read is
    rejected, and [awardXP] reports a level-up at the new level 2. *)
Lemma awardXP_levelUp_counterexample :
  let stored := set_currentLevel 5 (set_totalXP 1000 getDefaultStats) in
  let w := {| store := {[ STATS_KEY := "{}" ]}; faults := [true]; accesses := [];
              console := []; haptics := []; clock := noon |} in
  @JSON_parse (echo_runtime stored) "{}" = Ret stored /\
  w.(store) !! STATS_KEY = Some "{}" /\
  exists r w',
    @awardXP (echo_runtime stored) 100 "Task completion" w = (Ret r, w') /\
    r.(levelUp) = true /\
    r.(stats).(currentLevel) = 2 /\
    ~ stored.(currentLevel) < r.(stats).(currentLevel).
Proof.
  intros stored w. split; [reflexivity|]. split; [apply lookup_singleton_eq|].
  eexists _, _. split.
  - rewrite (@awardXP_eq (echo_runtime stored)), (@loadPlayerStats_eq (echo_runtime stored)).
    unfold read_stats. subst w. cbn [faults hd]. cbv zeta. reflexivity.
  - split; [reflexivity|]. split; [reflexivity|].
    vm_compute. intros Hlt. discriminate Hlt.
Qed.

Lemma awardXP_level_invariant_witness :
  exists r w1,
    @awardXP strict_runtime 120 "Task completion" (fresh_world [] noon) = (Ret r, w1) /\
    r.(stats).(currentLevel) = calculateLevel r.(stats).(totalXP) /\
    (r.(levelUp) = true <-> 1 < r.(stats).(currentLevel)).
Proof.
  destruct (@awardXP_level_invariant strict_runtime (fresh_world [] noon) _ _ eq_refl)
    as (_ & Haward & _).
  destruct (Haward 120 "Task completion") as (r & w1 & Hrun & Hlevel & _ & _ & Hup).
  exists r, w1. split; [exact Hrun|]. split; [exact Hlevel|exact Hup].
Defined.

(** ** Levels and thresholds *)

Lemma Qmax_nonneg (q : Q) : (0 <= q)%Q -> Qmax q 0 = q.
Proof.
  intros Hq. unfold Qmax, GenericMinMax.gmax.
  destruct (q ?= 0)%Q eqn:Hc; try reflexivity.
  apply Qlt_alt in Hc. apply Qlt_not_le in Hc. contradiction.
Qed.

Lemma Qmin_below_one (q : Q) : (q <= 1)%Q -> Qmin q 1 = q.
Proof.
  intros Hq. unfold Qmin, GenericMinMax.gmin.
  destruct (q ?= 1)%Q eqn:Hc; try reflexivity.
  apply Qgt_alt in Hc. apply Qlt_not_le in Hc. contradiction.
Qed.

Lemma quotient_in_unit_interval (a b : Z) :
  0 <= a <= b -> 0 < b -> (0 <= inject_Z a / inject_Z b <= 1)%Q.
Proof.
  intros Ha Hb. destruct b as [|p|p]; try lia.
  unfold Qdiv, Qinv, Qmult, Qle, inject_Z. simpl. lia.
Qed.

Lemma thresholds_facts :
  (forall l, 1 <= l <= 10 -> calculateLevel (getXPForCurrentLevel l) = l) /\
  (forall l, 1 <= l <= 9 ->
     calculateLevel (getXPForNextLevel l) = l + 1 /\
     calculateLevel (getXPForNextLevel l - 1) = l) /\
  (forall points, 0 <= points ->
     getXPForCurrentLevel (calculateLevel points) <= points /\
     (calculateLevel points < 10 ->
      points < getXPForNextLevel (calculateLevel points))) /\
  (forall l, l < 1 \/ 10 < l -> getXPForCurrentLevel l = 0) /\
  (forall l, l < 0 \/ 9 < l -> getXPForNextLevel l = 12000).
Proof.
  split; [|split; [|split; [|split]]].
  - intros l Hl.
    assert (Hc : l = 1 \/ l = 2 \/ l = 3 \/ l = 4 \/ l = 5 \/ l = 6 \/ l = 7 \/
                 l = 8 \/ l = 9 \/ l = 10) by lia.
    clear Hl. repeat destruct Hc as [Hc|Hc]; subst l; reflexivity.
  - intros l Hl.
    assert (Hc : l = 1 \/ l = 2 \/ l = 3 \/ l = 4 \/ l = 5 \/ l = 6 \/ l = 7 \/
                 l = 8 \/ l = 9) by lia.
    clear Hl. repeat destruct Hc as [Hc|Hc]; subst l; split; reflexivity.
  - intros points Hp. rewrite calculateLevel_unfold.
    repeat match goal with
           | |- context [?a >=? ?b] => destruct (Z.geb_spec a b)
           end; vm_compute getXPForCurrentLevel; vm_compute getXPForNextLevel;
      split; lia.
  - intros l Hl. unfold getXPForCurrentLevel, LEVELS. cbn [List.find level].
    repeat match goal with
           | |- context [?a =? ?b] => destruct (Z.eqb_spec a b); [lia|]
           end. reflexivity.
  - intros l Hl. unfold getXPForNextLevel, LEVELS. cbn [List.find level].
    repeat match goal with
           | |- context [?a =? ?b] => destruct (Z.eqb_spec a b); [lia|]
           end. reflexivity.
Qed.

(** X15: the thresholds and the level function fit together: the threshold
    of a level from 1 to 10 has that level, the threshold of the next level
    has the next level and one XP less still has the level itself; the XP of
    a player lies between the threshold of its level and, below level 10,
    the threshold of the next one.  Outside the table the current threshold
    defaults to 0 and the next one to the last threshold, 12000. *)
Theorem thresholds_round_trip :
  (forall l, 1 <= l <= 10 -> calculateLevel (getXPForCurrentLevel l) = l) /\
  (forall l, 1 <= l <= 9 ->
     calculateLevel (getXPForNextLevel l) = l + 1 /\
     calculateLevel (getXPForNextLevel l - 1) = l) /\
  (forall points, 0 <= points ->
     getXPForCurrentLevel (calculateLevel points) <= points /\
     (calculateLevel points < 10 ->
      points < getXPForNextLevel (calculateLevel points))) /\
  (forall l, l < 1 \/ 10 < l -> getXPForCurrentLevel l = 0) /\
  (forall l, l < 0 \/ 9 < l -> getXPForNextLevel l = 12000).
Proof. apply thresholds_facts. Qed.

Lemma thresholds_round_trip_witness :
  calculateLevel (getXPForCurrentLevel 4) = 4 /\
  getXPForCurrentLevel (calculateLevel 777) <= 777 < getXPForNextLevel (calculateLevel 777).
Proof.
  destruct thresholds_round_trip as (Hcur & _ & Hbracket & _).
  split; [apply Hcur; lia|].
  destruct (Hbracket 777 ltac:(lia)) as [Hlow Hhigh].
  split; [exact Hlow|]. apply Hhigh. vm_compute. reflexivity.
Defined.

(** X16: for stats that are consistent (non-negative XP, the level of that
    XP) and below level 10, the clamping of [getLevelProgress] is idle: the
    result is the quotient itself.  At level 10 the divisor is 0 and the
    result is NaN for exactly 12000 XP, 1 above and 0 below. *)
Theorem getLevelProgress_consistent (s : PlayerStats) :
  (0 <= s.(totalXP) -> s.(currentLevel) = calculateLevel s.(totalXP) ->
   s.(currentLevel) < 10 ->
   getLevelProgress s =
     Finite (inject_Z (s.(totalXP) - getXPForCurrentLevel s.(currentLevel)) /
             inject_Z (levelSpan s))) /\
  (s.(currentLevel) = 10 ->
   getLevelProgress s =
     if s.(totalXP) =? 12000 then NaN
     else if 12000 <? s.(totalXP) then Finite 1 else Finite 0).
Proof.
  split.
  - intros Hxp Hcons Hlt.
    destruct thresholds_facts as (_ & _ & Hbracket & _).
    destruct (Hbracket _ Hxp) as [Hlow Hhigh]. rewrite <- Hcons in Hlow, Hhigh.
    specialize (Hhigh Hlt).
    unfold getLevelProgress, levelSpan, js_div.
    set (cur := getXPForCurrentLevel (currentLevel s)) in *.
    set (next := getXPForNextLevel (currentLevel s)) in *.
    destruct (Z.eqb_spec (next - cur) 0) as [|_]; [lia|].
    destruct (quotient_in_unit_interval (totalXP s - cur) (next - cur)) as [H0 H1];
      [lia|lia|].
    cbn [Math_max Math_min]. rewrite (Qmax_nonneg _ H0), (Qmin_below_one _ H1).
    reflexivity.
  - intros Hl. unfold getLevelProgress. rewrite Hl.
    change (getXPForCurrentLevel 10) with 12000.
    change (getXPForNextLevel 10) with 12000.
    unfold js_div. simpl (12000 - 12000 =? 0). cbv iota.
    destruct (Z.eqb_spec (totalXP s - 12000) 0) as [He|Hne].
    + replace (totalXP s =? 12000) with true by (symmetry; apply Z.eqb_eq; lia).
      reflexivity.
    + replace (totalXP s =? 12000) with false by (symmetry; apply Z.eqb_neq; lia).
      destruct (Z.ltb_spec 0 (totalXP s - 12000)).
      * replace (12000 <? totalXP s) with true by (symmetry; apply Z.ltb_lt; lia).
        reflexivity.
      * replace (12000 <? totalXP s) with false by (symmetry; apply Z.ltb_ge; lia).
        reflexivity.
Qed.

Lemma getLevelProgress_consistent_witness :
  getLevelProgress (set_currentLevel 3 (set_totalXP 300 getDefaultStats)) =
    Finite (inject_Z 50 / inject_Z 250) /\
  getLevelProgress (set_currentLevel 10 (set_totalXP 12000 getDefaultStats)) = NaN.
Proof.
  split.
  - apply (proj1 (getLevelProgress_consistent
                    (set_currentLevel 3 (set_totalXP 300 getDefaultStats))));
      [simpl; lia|reflexivity|simpl; lia].
  - apply (proj2 (getLevelProgress_consistent
                    (set_currentLevel 10 (set_totalXP 12000 getDefaultStats)))).
    reflexivity.
Defined.

(** X17: the level bar shows the table entry of the level, and the entry of
    level 1 for a level the table does not have; for consistent stats the XP
    shown as earned within the level is never negative and, below level 10,
    less than the XP shown as needed, which is positive; at level 10 the XP
    needed is shown as 0. *)
Theorem level_bar_figures :
  (forall l, 1 <= l <= 10 -> exists e, levelData l = Some e /\ e.(level) = l) /\
  (forall l, l < 1 \/ 10 < l -> levelData l = LEVELS !! 0%nat) /\
  (forall points, 0 <= points ->
     0 <= xpInLevel (calculateLevel points) points /\
     (calculateLevel points < 10 ->
      xpInLevel (calculateLevel points) points < xpNeeded (calculateLevel points))) /\
  xpNeeded 10 = 0.
Proof.
  split; [|split; [|split]].
  - intros l Hl.
    assert (Hc : l = 1 \/ l = 2 \/ l = 3 \/ l = 4 \/ l = 5 \/ l = 6 \/ l = 7 \/
                 l = 8 \/ l = 9 \/ l = 10) by lia.
    clear Hl. repeat destruct Hc as [Hc|Hc]; subst l; eexists; split; reflexivity.
  - intros l Hl. unfold levelData, LEVELS. cbn [List.find level].
    repeat match goal with
           | |- context [?a =? ?b] => destruct (Z.eqb_spec a b); [lia|]
           end. reflexivity.
  - intros points Hp.
    destruct thresholds_facts as (_ & _ & Hbracket & _).
    destruct (Hbracket _ Hp) as [Hlow Hhigh].
    unfold xpInLevel, xpNeeded. split; [lia|]. intros Hlt.
    specialize (Hhigh Hlt). lia.
  - reflexivity.
Qed.

Lemma level_bar_figures_witness :
  xpInLevel (calculateLevel 777) 777 = 277 /\
  xpInLevel (calculateLevel 777) 777 < xpNeeded (calculateLevel 777).
Proof.
  split; [reflexivity|].
  destruct level_bar_figures as (_ & _ & Hfig & _).
  apply (Hfig 777); [lia|vm_compute; reflexivity].
Defined.

(** ** The task edit modal: what gets saved *)

Import TaskEditModal.

Section ModalCases.
Context `{Platform}.

Lemma handleSave_cases (s : State) :
  (handleSave s = None <->
     s.(task) = None \/ truthy (trim s.(st_title)) = false \/
     s.(st_dueDate) = Some None) /\
  (forall o, handleSave s = Some o ->
     s.(task) = Some o.(spread) /\
     o.(saved_title) = trim s.(st_title) /\ truthy o.(saved_title) = true).
Proof.
  unfold handleSave. destruct (task s) as [t|].
  - destruct (truthy (trim (st_title s))) eqn:Ht; simpl.
    + destruct (st_dueDate s) as [[d|]|]; split;
        try (split; [discriminate|intros [?|[?|?]]; congruence]);
        try (split; [auto|reflexivity]);
        try (intros o [= <-]; simpl; auto); try discriminate.
    + split; [split; auto|discriminate].
  - split; [split; auto|discriminate].
Qed.

(** X18: [handleSave] reaches [onSave] exactly when there is a task, the
    title is not blank and the date hook does not hold an invalid date; the
    title it passes is trimmed and not empty, and the spread is the task. *)
Theorem handleSave_reaches_onSave (s : State) :
  (handleSave s = None <->
     s.(task) = None \/ truthy (trim s.(st_title)) = false \/
     s.(st_dueDate) = Some None) /\
  (forall o, handleSave s = Some o ->
     s.(task) = Some o.(spread) /\
     o.(saved_title) = trim s.(st_title) /\ truthy o.(saved_title) = true).
Proof. apply handleSave_cases. Qed.

Lemma step_same_fields (s1 s2 : State) (ev : Event) :
  same_fields s1 s2 -> same_fields (step s1 ev) (step s2 ev).
Proof.
  intros (Ht & Hti & Hd & Hty & Hp & Hdu & He). unfold same_fields.
  destruct ev as [[t|]| | | | |[d|]|]; simpl; rewrite ?Hdu; auto 10.
Qed.

Lemma run_same_fields (events : list Event) (s1 s2 : State) :
  same_fields s1 s2 -> same_fields (run events s1) (run events s2).
Proof.
  revert s1 s2. induction events as [|ev events IH]; intros s1 s2 Hs; simpl; auto.
  apply IH, step_same_fields, Hs.
Qed.

Lemma handleSave_same_fields (s1 s2 : State) :
  same_fields s1 s2 -> handleSave s1 = handleSave s2.
Proof.
  intros (Ht & Hti & Hd & Hty & Hp & Hdu & He). unfold handleSave.
  rewrite Ht, Hti, Hd, Hty, Hp, Hdu, He. reflexivity.
Qed.

(** X19: passing a task to the modal overwrites every field hook, so what
    is saved afterwards does not depend on what the modal held before: the
    edits made for one task never reach the save of the next. *)
Theorem passing_a_task_resets (t : Task) (events : list Event) (s1 s2 : State) :
  handleSave (run (PassTask (Some t) :: events) s1) =
  handleSave (run (PassTask (Some t) :: events) s2).
Proof.
  apply handleSave_same_fields. simpl. apply run_same_fields.
  unfold same_fields. simpl. auto 10.
Qed.

Lemma run_keeps_date (events : list Event) (s : State) :
  forallb keeps_date events = true ->
  (run events s).(st_dueDate) = s.(st_dueDate).
Proof.
  revert s. induction events as [|ev events IH]; intros s Hall; simpl; [reflexivity|].
  simpl in Hall. apply andb_true_iff in Hall as [Hev Hall].
  rewrite (IH _ Hall).
  destruct ev as [t| | | | |[d|]|]; try discriminate; reflexivity.
Qed.

(** X20: a task whose due date string is not a valid date cannot be saved
    until a date is picked: whatever else the user edits, [handleSave] does
    not reach [onSave]. *)
Theorem invalid_due_date_blocks_save (t : Task) (due : string)
    (events : list Event) (s : State) :
  t.(due_date) = Some due -> truthy due = true -> Date_parse due = None ->
  forallb keeps_date events = true ->
  handleSave (run (PassTask (Some t) :: events) s) = None.
Proof.
  intros Hdue Ht Hparse Hkeep.
  apply (proj1 (handleSave_cases _)). right. right.
  simpl. rewrite (run_keeps_date _ _ Hkeep). simpl.
  rewrite Hdue, Ht, Hparse. reflexivity.
Qed.

Lemma run_keeps_priority (events : list Event) (s : State) :
  forallb keeps_priority events = true ->
  (run events s).(st_priority) = s.(st_priority).
Proof.
  revert s. induction events as [|ev events IH]; intros s Hall; simpl; [reflexivity|].
  simpl in Hall. apply andb_true_iff in Hall as [Hev Hall].
  rewrite (IH _ Hall).
  destruct ev as [t| | | | |[d|]|]; try discriminate; reflexivity.
Qed.

Lemma run_app (events1 events2 : list Event) (s : State) :
  run (events1 ++ events2) s = run events2 (run events1 s).
Proof. unfold run. apply fold_left_app. Qed.

Lemma run_cons (ev : Event) (events : list Event) (s : State) :
  run (ev :: events) s = run events (step s ev).
Proof. reflexivity. Qed.

(** X21: the last priority button pressed since the task was passed is the
    priority saved, whatever the task came with. *)
Theorem last_priority_pressed_is_saved (before after : list Event) (p : Priority)
    (s : State) (o : Saved) :
  forallb keeps_priority after = true ->
  handleSave (run (before ++ PressPriority p :: after) s) = Some o ->
  o.(saved_priority) = Priority_value p.
Proof.
  intros Hkeep Hsave. apply handleSave_passes_hook in Hsave as [_ ->].
  rewrite run_app, run_cons, (run_keeps_priority _ _ Hkeep). reflexivity.
Qed.
End ModalCases.

Lemma handleSave_reaches_onSave_witness :
  (exists o,
     @handleSave plain_platform
       (@run plain_platform [PassTask (Some (essay (Some "high")))] initial) = Some o /\
     o.(saved_title) = "Essay" /\ truthy o.(saved_title) = true) /\
  @handleSave plain_platform
    (@run plain_platform
       [PassTask (Some (essay None)); ChangeTitle (no_break_space ++ " ")] initial)
    = None.
Proof.
  split.
  - eexists. split; [reflexivity|].
    destruct (@handleSave_reaches_onSave plain_platform
                (@run plain_platform [PassTask (Some (essay (Some "high")))] initial))
      as [_ Hsome].
    destruct (Hsome _ eq_refl) as (_ & Htitle & Htruthy).
    split; [exact Htitle|exact Htruthy].
  - apply (proj2 (proj1 (@handleSave_reaches_onSave plain_platform _))).
    right. left. reflexivity.
Defined.

Lemma invalid_due_date_blocks_save_witness :
  let t := {| id := "7"; title := "Lab report"; description := None;
              type := "homework"; priority := Some "low";
              due_date := Some "next week"; estimated_duration := None |} in
  @handleSave plain_platform
    (@run plain_platform
       [PassTask (Some t); ChangeTitle "Lab report 2"; PressPriority high] initial)
    = None.
Proof.
  intros t.
  apply (@invalid_due_date_blocks_save plain_platform t "next week"
           [ChangeTitle "Lab report 2"; PressPriority high] initial);
    reflexivity.
Defined.

Lemma last_priority_pressed_is_saved_witness :
  exists o,
    @handleSave plain_platform
      (@run plain_platform
         ([PassTask (Some (essay (Some "critical")))] ++
          PressPriority urgent :: [ChangeTitle "Essay, final"]) initial) = Some o /\
    o.(saved_priority) = "urgent".
Proof.
  eexists. split; [reflexivity|].
  apply (@last_priority_pressed_is_saved plain_platform
           [PassTask (Some (essay (Some "critical")))] [ChangeTitle "Essay, final"]
           urgent initial _ eq_refl eq_refl).
Defined.

(** ** The handlers, request by request *)

Import Api.

Ltac run_more :=
  cbv beta iota zeta delta
    [Eff.try_catch_finally Eff.try_finally Eff.try_catch Eff.bind Eff.lift
     Eff.ret Eff.throw Eff.effect Eff.spawn snd fst
     getAuthHeaders supabase_auth_getSession DocumentPicker_getDocumentAsync
     fetch emit Alert_alert console_error setState throw_unless_ok negb andb
     handleIcsSync_try handleIcsSync_catch handleIcsSync_finally
     handlePdfUpload handlePdfUpload_try handlePdfUpload_catch
     handlePdfUpload_finally
     load load_try load_catch load_finally load_resumed resume
     saveCourse_try saveCourse_catch saveCourse_finally saveCourse_and_reload
     updateCourse deleteCourse fetchTasks fetchTasks_try toggleTaskStatus
     emitted resolves picked next_reply_ok next_reply_json
     session replies picker trace access_token ok status json canceled assets
     js_get String.eqb Ascii.eqb Bool.eqb].

Ltac every_answer := run_more; repeat (next_answer; run_more).

Ltac shown := eexists; split; [trace_grew|reflexivity].

(** X22: which requests the handlers send.  The ICS sync sends its one POST
    exactly when the URL is not blank and the session lookup resolves; the
    PDF upload when the picker returned a file and the session lookup
    resolves; [load] whenever the session lookup resolves; [saveCourse]
    itself sends its POST, and nothing else, when the name is not blank and
    the session lookup resolves; the reload it leaves under way sends the
    GET after it exactly when the POST was answered with an OK status and a
    JSON body.  Nothing else is requested. *)
Theorem requests_sent (w : World) (text : string) :
  (exists events, emitted (handleIcsSync text) w events /\
     requested events =
       if truthy (trim text) && resolves w.(session)
       then [("POST", endpoint_url IcsSync)] else []) /\
  (exists events, emitted handlePdfUpload w events /\
     requested events =
       if picked w.(picker) && resolves w.(session)
       then [("POST", endpoint_url ExtractDeadlines)] else []) /\
  (exists events, emitted load w events /\
     requested events =
       if resolves w.(session) then [("GET", endpoint_url Courses)] else []) /\
  (exists events,
     (snd (saveCourse text w)).(trace) = (w.(trace) ++ events)%list /\
     requested events =
       if truthy (trim text) && resolves w.(session)
       then [("POST", endpoint_url Courses)] else []) /\
  (exists events, emitted (saveCourse_and_reload text) w events /\
     requested events =
       if truthy (trim text) && resolves w.(session)
       then ("POST", endpoint_url Courses) ::
            (if next_reply_json w.(replies)
             then [("GET", endpoint_url Courses)] else [])
       else []).
Proof.
  destruct w as [sess answers pick tr]. split; [|split; [|split; [|split]]].
  - unfold handleIcsSync. destruct (truthy (trim text)); every_answer; shown.
  - every_answer; shown.
  - every_answer; shown.
  - unfold saveCourse. destruct (truthy (trim text)); every_answer; shown.
  - unfold saveCourse_and_reload, saveCourse.
    destruct (truthy (trim text)); every_answer; shown.
Qed.

Ltac ends_with n :=
  match goal with
  | |- exists before, ?l = (before ++ _)%list =>
      exists (take (length l - n) l); reflexivity
  end.

(** X23: the busy flags are always put back.  A sync that passes the check
    of the URL starts by setting [icsLoading] and ends by clearing it; the
    PDF upload ends by clearing [pdfLoading]; [load] ends by clearing
    [loading] and then [refreshing]; a [saveCourse] that passes the check of
    the name starts by setting [saving] and ends by clearing it, before the
    reload it started goes on. *)
Theorem busy_flags_are_cleared (w : World) (text : string) :
  (truthy (trim text) = true ->
   exists events, emitted (handleIcsSync text) w events /\
     head events = Some (SetState "icsLoading" (JBool true)) /\
     last events = Some (SetState "icsLoading" (JBool false))) /\
  (exists events, emitted handlePdfUpload w events /\
     last events = Some (SetState "pdfLoading" (JBool false))) /\
  (exists events, emitted load w events /\
     exists before, events =
       (before ++ [SetState "loading" (JBool false);
                   SetState "refreshing" (JBool false)])%list) /\
  (truthy (trim text) = true ->
   exists events,
     (snd (saveCourse text w)).(trace) = (w.(trace) ++ events)%list /\
     head events = Some (SetState "saving" (JBool true)) /\
     last events = Some (SetState "saving" (JBool false))).
Proof.
  destruct w as [sess answers pick tr]. split; [|split; [|split]].
  - intros Ht. unfold handleIcsSync. rewrite Ht.
    every_answer; (eexists; split; [trace_grew|split; reflexivity]).
  - every_answer; shown.
  - every_answer; (eexists; split; [trace_grew|ends_with 2%nat]).
  - intros Ht. unfold saveCourse. rewrite Ht.
    every_answer; (eexists; split; [trace_grew|split; reflexivity]).
Qed.

Lemma busy_flags_are_cleared_witness :
  exists events,
    emitted (handleIcsSync "https://ade.example/cal.ics") (offline (Ret None)) events /\
    head events = Some (SetState "icsLoading" (JBool true)) /\
    last events = Some (SetState "icsLoading" (JBool false)).
Proof.
  destruct (busy_flags_are_cleared (offline (Ret None)) "https://ade.example/cal.ics")
    as (Hics & _).
  apply Hics. reflexivity.
Defined.

(** X24: what [load] shows for each answer, the session lookup having
    resolved to the headers [h].  A response with a status that is not OK
    stores the message 'HTTP ' followed by the status and leaves the courses
    as they are; an OK response with a JSON object stores its [courses]
    field, or the empty array when the field is missing or falsy, and no
    error; a failed request stores its message, or 'Failed to load courses'
    when the message is empty. *)
Theorem load_outcomes (w : World) (h : gmap string string) :
  fst (getAuthHeaders w) = Ret h ->
  let request := Fetch "GET" (endpoint_url Courses) h NoBody in
  let done := [SetState "loading" (JBool false); SetState "refreshing" (JBool false)] in
  (forall r rest, w.(replies) = Reply r :: rest -> r.(ok) = false ->
     emitted load w
       ([SetState "error" JNull; request;
         SetState "error" (JStr ("HTTP " ++ show_number r.(status)))] ++ done)) /\
  (forall r rest fields, w.(replies) = Reply r :: rest -> r.(ok) = true ->
     r.(json) = Ret (JObj fields) ->
     emitted load w
       ([SetState "error" JNull; request;
         SetState "courses" (js_or (js_field fields "courses") (JArr []))] ++ done)) /\
  (forall message rest, w.(replies) = NetworkError message :: rest ->
     emitted load w
       ([SetState "error" JNull; request;
         SetState "error" (JStr (if truthy message then message
                                 else "Failed to load courses"))] ++ done)).
Proof.
  intros Hh request done. subst request done.
  rewrite getAuthHeaders_run in Hh. cbn [fst] in Hh.
  destruct w as [sess answers pick tr]. cbn [session replies] in *.
  destruct sess as [[[token]|]|err]; [destruct (truthy token) eqn:Htoken| |];
    cbn [access_token] in Hh; rewrite ?Htoken in Hh; try discriminate Hh;
    injection Hh as <-;
    (split;
     [ intros [is_ok code body] rest -> Hok; cbn in Hok; subst is_ok
     | split;
       [ intros [is_ok code body] rest fields -> Hok Hjson; cbn in Hok, Hjson;
         subst is_ok body
       | intros message rest -> ] ]);
    run_more; rewrite ?Htoken; run_more; trace_grew.
Qed.

Lemma load_outcomes_witness :
  emitted load
    {| session := Ret None;
       replies := [Reply {| ok := false; status := 503; json := Throw "no body" |}];
       picker := Throw "unused"; trace := [] |}
    [SetState "error" JNull; Fetch "GET" (endpoint_url Courses) ∅ NoBody;
     SetState "error" (JStr "HTTP 503");
     SetState "loading" (JBool false); SetState "refreshing" (JBool false)].
Proof.
  refine (proj1 (load_outcomes
            {| session := Ret None;
               replies := [Reply {| ok := false; status := 503; json := Throw "no body" |}];
               picker := Throw "unused"; trace := [] |} ∅ eq_refl) _ _ eq_refl eq_refl).
Defined.

(** X25: [updateCourse] returns normally exactly when the session lookup
    resolves and the PATCH is answered with an OK status (the reload that
    follows cannot fail it); in every other case it throws the error of the
    failure, after storing its message in the [error] hook as the last thing
    it does. *)
Theorem updateCourse_outcomes (c : Course) (w : World) :
  (resolves w.(session) && next_reply_ok w.(replies) = true ->
   exists w', updateCourse c w = (Ret tt, w')) /\
  (resolves w.(session) && next_reply_ok w.(replies) = false ->
   exists e w',
     updateCourse c w = (Throw e, w') /\
     last w'.(trace) =
       Some (SetState "error"
               (JStr (if truthy e then e else "Erreur lors de la mise à jour")))).
Proof.
  destruct w as [sess answers pick tr].
  split; intros Hcond; revert Hcond; every_answer; intros Hcond;
    try discriminate Hcond;
    first [ eexists; reflexivity
          | eexists _, _; split; [reflexivity|]; cbn [trace];
            rewrite last_snoc; reflexivity ].
Qed.

Lemma updateCourse_outcomes_witness :
  exists e w',
    updateCourse {| id := "c1"; course_name := "Algebra"; code := None; color := None;
                    professor := None; credits := None; semester := None;
                    description := None |}
      {| session := Ret None;
         replies := [Reply {| ok := false; status := 403; json := Throw "no body" |}];
         picker := Throw "unused"; trace := [] |} = (Throw e, w') /\
    last w'.(trace) =
      Some (SetState "error"
              (JStr (if truthy e then e else "Erreur lors de la mise à jour"))).
Proof.
  apply updateCourse_outcomes. reflexivity.
Defined.

(** X26: [deleteCourse] never consults the session: its request is the first
    thing it does and carries no header at all, so no [Authorization] header
    even when the user is signed in.  It always returns normally, and it
    reloads the courses (when the session lookup resolves) exactly after an
    OK answer. *)
Theorem deleteCourse_sends_no_credentials (c : Course) (w : World) :
  exists w' events,
    deleteCourse c w = (Ret tt, w') /\
    w'.(trace) = (w.(trace) ++ events)%list /\
    head events = Some (Fetch "DELETE" (endpoint_url (CourseItem c.(id))) ∅ NoBody) /\
    (∅ : gmap string string) !! "Authorization" = None /\
    requested events =
      ("DELETE", endpoint_url (CourseItem c.(id))) ::
      (if next_reply_ok w.(replies) && resolves w.(session)
       then [("GET", endpoint_url Courses)] else []).
Proof.
  destruct w as [sess answers pick tr].
  every_answer;
    (eexists _, _; split; [reflexivity|]; split; [trace_grew|];
     split; [reflexivity|]; split; [apply lookup_empty|reflexivity]).
Qed.

Ltac quiet :=
  cbn;
  repeat match goal with
         | |- context [match ?v with _ => _ end] => destruct v
         end;
  reflexivity.

(** X27: [fetchTasks] never shows a failure to the user: it always returns
    normally and sets no alert and no error message.  After a response with
    a status that is not OK it does not even log: it only clears the busy
    flags and leaves the tasks as they are. *)
Theorem fetchTasks_is_silent (w : World) :
  (exists w' events,
     fetchTasks w = (Ret tt, w') /\
     w'.(trace) = (w.(trace) ++ events)%list /\
     existsb user_facing events = false) /\
  (forall h r rest,
     fst (getAuthHeaders w) = Ret h ->
     w.(replies) = Reply r :: rest -> r.(ok) = false ->
     emitted fetchTasks w
       [Fetch "GET" (endpoint_url Tasks) h NoBody;
        SetState "loading" (JBool false); SetState "refreshing" (JBool false)]).
Proof.
  destruct w as [sess answers pick tr]. split.
  - every_answer;
      (eexists _, _; split; [reflexivity|]; split; [trace_grew|quiet]).
  - intros h [is_ok code body] rest Hh Hrep Hok. cbn in Hrep, Hok. subst is_ok answers.
    rewrite getAuthHeaders_run in Hh. cbn [fst session] in Hh.
    destruct sess as [[[token]|]|err]; [destruct (truthy token) eqn:Htoken| |];
      cbn [access_token] in Hh; rewrite ?Htoken in Hh; try discriminate Hh;
      injection Hh as <-;
      run_more; rewrite ?Htoken; run_more; trace_grew.
Qed.

Lemma fetchTasks_is_silent_witness :
  emitted fetchTasks
    {| session := Ret None;
       replies := [Reply {| ok := false; status := 500; json := Throw "no body" |}];
       picker := Throw "unused"; trace := [] |}
    [Fetch "GET" (endpoint_url Tasks) ∅ NoBody;
     SetState "loading" (JBool false); SetState "refreshing" (JBool false)].
Proof.
  refine (proj2 (fetchTasks_is_silent
            {| session := Ret None;
               replies := [Reply {| ok := false; status := 500; json := Throw "no body" |}];
               picker := Throw "unused"; trace := [] |}) ∅ _ _ eq_refl eq_refl eq_refl).
Defined.

(** X28: [toggleTaskStatus] asks for 'todo' when the task is 'completed' and
    for 'completed' in every other case, so that toggling twice gives back
    'completed' or 'todo' but turns any other status into 'todo'; it sends
    the new status in one PATCH when the session lookup resolves, always
    returns normally and shows no failure to the user. *)
Theorem toggleTaskStatus_request (taskId currentStatus : string) (w : World) :
  (toggled currentStatus = "todo" <-> currentStatus = "completed") /\
  (currentStatus <> "completed" -> toggled (toggled currentStatus) = "todo") /\
  toggled (toggled "completed") = "completed" /\
  exists w' events,
    toggleTaskStatus taskId currentStatus w = (Ret tt, w') /\
    w'.(trace) = (w.(trace) ++ events)%list /\
    existsb user_facing events = false /\
    (resolves w.(session) = true ->
     exists h, head events =
       Some (Fetch "PATCH" (endpoint_url (TaskItem taskId)) h
               (JsonBody (JObj [("status", JStr (toggled currentStatus))])))).
Proof.
  split; [|split; [|split]].
  - unfold toggled. destruct (String.eqb_spec currentStatus "completed"); split;
      intros; congruence.
  - intros Hne. unfold toggled. apply String.eqb_neq in Hne. rewrite Hne. reflexivity.
  - reflexivity.
  - destruct w as [sess answers pick tr].
    every_answer;
      (eexists _, _; split; [reflexivity|]; split; [trace_grew|];
       split; [quiet|]; intros Hres; try discriminate Hres;
       eexists; reflexivity).
Qed.

Lemma toggleTaskStatus_request_witness :
  toggled (toggled "in_progress") = "todo".
Proof.
  apply (proj1 (proj2 (toggleTaskStatus_request "t1" "in_progress" (offline (Ret None))))).
  discriminate.
Defined.

(** ** Errors at the call site, base path and bearer token *)



















(** [updateCourse] is the callback the course edit modal awaits inside its
    own [try]: it stores the message like [load] and [saveCourse] do, and
    then throws the error again, for the modal to report. *)
Lemma updateCourse_rethrows (c : Course) :
  exists w',
    updateCourse c (offline (Ret None)) = (Throw "Network request failed", w') /\
    existsb user_facing w'.(trace) = true.
Proof. eexists. split; reflexivity. Qed.





